(** * VintageMacDebug/Debug.c: a file-based debug logger for Classic Mac OS

    A shallow embedding of [Debug.c] and the properties of its
    specification.  The logger keeps two globals ([gDebugRefNum],
    [gDebugEnabled]) and talks to the Toolbox ([FSClose], [FSDelete],
    [Create], [FSOpen], [FSWrite], [SysBeep]).  The Toolbox is not part of
    the repository: it is a parameter of the development, and every call
    made to it is recorded, with its answer, in a trace. *)

From Stdlib Require Import ZArith Ascii String Lia.
From stdpp Require Import base list strings.

Local Open Scope Z_scope.

(** ** C data *)

(** [short] is 16 bits and [long] 32 bits on the 68k and PowerPC Toolbox
    ABIs; signed values wrap around in two's complement. *)
Module CInt.

Definition wrap_signed (bits : Z) (z : Z) : Z :=
  (z + 2 ^ (bits - 1)) mod 2 ^ bits - 2 ^ (bits - 1).

Definition to_short (z : Z) : Z := wrap_signed 16 z.
Definition to_long (z : Z) : Z := wrap_signed 32 z.
Definition to_ulong (z : Z) : Z := z mod 2 ^ 32.
Definition to_uchar (z : Z) : Z := z mod 2 ^ 8.

Definition short_range (z : Z) : Prop := - 2 ^ 15 <= z < 2 ^ 15.
Definition long_range (z : Z) : Prop := - 2 ^ 31 <= z < 2 ^ 31.
Definition ulong_range (z : Z) : Prop := 0 <= z < 2 ^ 32.

Definition LONG_MIN : Z := - 2 ^ 31.

End CInt.
Import CInt.

(** A [char] is an [ascii]; the conversions are those of C. *)
Definition char_of_Z (z : Z) : ascii := ascii_of_N (Z.to_N (to_uchar z)).
Definition Z_of_char (c : ascii) : Z := Z.of_N (N_of_ascii c).

Definition NUL : ascii := "000"%char.
Definition CR : ascii := "013"%char.

#[global] Instance ascii_inhabited : Inhabited ascii := populate NUL.

(** A [const char *] is [nil] or points to bytes in memory.  The bytes are
    given as a list; what lies behind the end of the list reads as the
    terminating NUL. *)
Definition cstr : Type := option (list ascii).

Definition chars (s : string) : list ascii := list_ascii_of_string s.
Definition lit (s : string) : cstr := Some (chars s).

Definition is_nul (c : ascii) : bool := Ascii.eqb c NUL.

Definition is_nil (p : cstr) : bool :=
  match p with None => true | Some _ => false end.

(** The bytes a non-nil pointer points to. *)
Definition deref (p : cstr) : list ascii := default [] p.

(** The C length of a string: the bytes before the first NUL. *)
Fixpoint c_strlen (s : list ascii) : Z :=
  match s with
  | [] => 0
  | c :: rest => if is_nul c then 0 else 1 + c_strlen rest
  end.

(** ** MyStrLen *)

(** [while ( *str != '\0' && len < 32000) { len++; str++; }] *)
Fixpoint MyStrLen_loop (str : list ascii) (len : Z) : Z :=
  match str with
  | [] => len
  | c :: rest =>
      if negb (is_nul c) && (len <? 32000)
      then MyStrLen_loop rest (to_short (len + 1))
      else len
  end.

Definition MyStrLen (str : cstr) : Z :=
  match str with
  | None => 0
  | Some s => MyStrLen_loop s 0
  end.
Arguments MyStrLen : simpl never.

(** ** The Toolbox *)

Definition OSErr : Type := Z.
Definition noErr : OSErr := 0.

(** Every Toolbox call the logger makes, with its arguments and its answer.
    File names are the text of the Pascal string passed; the buffer of a
    write is the [count] bytes that were requested. *)
Inductive Event : Type :=
| EvFSClose (refNum : Z) (err : OSErr)
| EvFSDelete (fileName : list ascii) (vRefNum : Z) (err : OSErr)
| EvCreate (fileName : list ascii) (vRefNum : Z) (creator fileType : string)
    (err : OSErr)
| EvFSOpen (fileName : list ascii) (vRefNum : Z) (err : OSErr) (refNum : Z)
| EvFSWrite (refNum : Z) (count : Z) (buf : list ascii) (err : OSErr)
    (written : Z)
| EvSysBeep (duration : Z).

(** The Toolbox over a world [W] (disk, open files, speaker).  [FSOpen]
    answers with the error and the reference number it stored; [FSWrite]
    with the error and the byte count it stored back into [count]. *)
Record Toolbox (W : Type) : Type := mkToolbox {
  tb_FSClose : W -> Z -> W * OSErr;
  tb_FSDelete : W -> list ascii -> Z -> W * OSErr;
  tb_Create : W -> list ascii -> Z -> string -> string -> W * OSErr;
  tb_FSOpen : W -> list ascii -> Z -> W * (OSErr * Z);
  tb_FSWrite : W -> Z -> Z -> list ascii -> W * (OSErr * Z);
  tb_SysBeep : W -> Z -> W
}.
Arguments tb_FSClose {W}.
Arguments tb_FSDelete {W}.
Arguments tb_Create {W}.
Arguments tb_FSOpen {W}.
Arguments tb_FSWrite {W}.
Arguments tb_SysBeep {W}.

(** ** Program state *)

(** The two private globals of [Debug.c], the world and the trace. *)
Record Sys (W : Type) : Type := mkSys {
  gDebugRefNum : Z;
  gDebugEnabled : bool;
  world : W;
  trace : list Event
}.
Arguments mkSys {W}.
Arguments gDebugRefNum {W}.
Arguments gDebugEnabled {W}.
Arguments world {W}.
Arguments trace {W}.

(** [static short gDebugRefNum = 0; static Boolean gDebugEnabled = false;] *)
Definition initial {W : Type} (w : W) : Sys W := mkSys 0 false w [].

(** A Pascal string buffer: the length byte, then the text. *)
Definition pstr_text (buf : list ascii) : list ascii :=
  take (Z.to_nat (Z_of_char (buf !!! 0%nat))) (drop 1 buf).

Section Logger.

Context {W : Type} (tb : Toolbox W).

Definition M (A : Type) : Type := Sys W -> A * Sys W.

#[global] Instance M_ret : MRet M := fun A a s => (a, s).

#[global] Instance M_bind : MBind M :=
  fun A B k m s => let (a, s') := m s in k a s'.

Definition get_RefNum : M Z := fun s => (gDebugRefNum s, s).
Definition get_Enabled : M bool := fun s => (gDebugEnabled s, s).

Definition set_RefNum (r : Z) : M unit :=
  fun s => (tt, mkSys r (gDebugEnabled s) (world s) (trace s)).

Definition set_Enabled (b : bool) : M unit :=
  fun s => (tt, mkSys (gDebugRefNum s) b (world s) (trace s)).

(** A Toolbox call moves the world on and is appended to the trace. *)
Definition called (w : W) (e : Event) (s : Sys W) : Sys W :=
  mkSys (gDebugRefNum s) (gDebugEnabled s) w (trace s ++ [e]).

Definition FSClose (refNum : Z) : M OSErr :=
  fun s =>
    let (w, err) := tb_FSClose tb (world s) refNum in
    (err, called w (EvFSClose refNum err) s).

Definition FSDelete (fileName : list ascii) (vRefNum : Z) : M OSErr :=
  fun s =>
    let name := pstr_text fileName in
    let (w, err) := tb_FSDelete tb (world s) name vRefNum in
    (err, called w (EvFSDelete name vRefNum err) s).

Definition Create (fileName : list ascii) (vRefNum : Z)
    (creator fileType : string) : M OSErr :=
  fun s =>
    let name := pstr_text fileName in
    let (w, err) := tb_Create tb (world s) name vRefNum creator fileType in
    (err, called w (EvCreate name vRefNum creator fileType err) s).

(** [FSOpen(fileName, vRefNum, &gDebugRefNum)]: the reference number is
    stored straight into the global. *)
Definition FSOpen_gDebugRefNum (fileName : list ascii) (vRefNum : Z)
    : M OSErr :=
  fun s =>
    let name := pstr_text fileName in
    let '(w, (err, refNum)) := tb_FSOpen tb (world s) name vRefNum in
    (err, mkSys refNum (gDebugEnabled s) w
            (trace s ++ [EvFSOpen name vRefNum err refNum])).

(** [FSWrite(refNum, &count, buffPtr)]: answers the error and the new
    value of [count]. *)
Definition FSWrite (refNum : Z) (count : Z) (buffPtr : list ascii)
    : M (OSErr * Z) :=
  fun s =>
    let buf := take (Z.to_nat count) buffPtr in
    let '(w, (err, written)) := tb_FSWrite tb (world s) refNum count buf in
    ((err, written), called w (EvFSWrite refNum count buf err written) s).

Definition SysBeep (duration : Z) : M unit :=
  fun s => (tt, called (tb_SysBeep tb (world s) duration)
                  (EvSysBeep duration) s).

(** *** DebugInit *)

Definition headerMsg : list ascii := chars "DEBUG LOG INITIALIZED" ++ [CR].
Arguments headerMsg : simpl never.

(** [for (i = 0; i < len; i++) pFilename[i + 1] = filename[i];] *)
Definition copy_name (filename : list ascii) (len : Z)
    (pFilename : list ascii) : list ascii :=
  foldl (fun buf i => <[S i := filename !!! i]> buf) pFilename
    (seq 0 (Z.to_nat len)).

(** [unsigned char pFilename[256]] with the name converted into it. *)
Definition to_pascal (filename : list ascii) : list ascii :=
  let len := MyStrLen (Some filename) in
  let len := if len >? 255 then 255 else len in
  let pFilename := replicate 256 NUL in
  let pFilename := <[0%nat := char_of_Z len]> pFilename in
  copy_name filename len pFilename.

Definition DebugInit (filename : cstr) : M bool :=
  ref ← get_RefNum;
  (if negb (ref =? 0) then FSClose ref;; set_RefNum 0 else mret tt);;
  set_Enabled false;;
  match filename with
  | None => SysBeep 1;; mret false
  | Some name =>
      let pFilename := to_pascal name in
      FSDelete pFilename 0;;
      err ← Create pFilename 0 "ttxt" "TEXT";
      if negb (err =? noErr) then SysBeep 2;; mret false
      else
        err ← FSOpen_gDebugRefNum pFilename 0;
        if negb (err =? noErr) then
          SysBeep 3;; set_RefNum 0;; mret false
        else
          set_Enabled true;;
          let count := MyStrLen (Some headerMsg) in
          ref ← get_RefNum;
          '(err, _) ← FSWrite ref count headerMsg;
          if negb (err =? noErr) then
            SysBeep 4;;
            ref ← get_RefNum;
            FSClose ref;;
            set_RefNum 0;;
            set_Enabled false;;
            mret false
          else SysBeep 10;; mret true
  end.

(** *** DebugLog *)

Definition DebugLog (message : cstr) : M unit :=
  enabled ← get_Enabled;
  if negb enabled then SysBeep 5
  else
    ref ← get_RefNum;
    if ref =? 0 then SysBeep 6
    else
      match message with
      | None => SysBeep 7
      | Some msg =>
          let msgLen := MyStrLen message in
          if msgLen =? 0 then SysBeep 8
          else
            '(err, count) ← FSWrite ref msgLen msg;
            if negb (err =? noErr) || negb (count =? msgLen) then SysBeep 20
            else
              ref ← get_RefNum;
              '(err, _) ← FSWrite ref 1 [CR];
              if negb (err =? noErr) then SysBeep 21 else mret tt
      end.

(** *** DebugLogInt *)

(** [while (absVal > 0 && i < 19) { numBuf[i++] = '0' + (absVal % 10);
    absVal /= 10; }].  Each round increments [i], so 19 rounds are
    enough; the loop answers the buffer, [i] and what is left of
    [absVal]. *)
Fixpoint digits_loop (fuel : nat) (absVal i : Z) (numBuf : list ascii)
    : list ascii * Z * Z :=
  match fuel with
  | O => (numBuf, i, absVal)
  | S fuel' =>
      if (absVal >? 0) && (i <? 19) then
        digits_loop fuel' (to_ulong (absVal / 10)) (to_short (i + 1))
          (<[Z.to_nat i := char_of_Z (Z_of_char "0" + absVal mod 10)]> numBuf)
      else (numBuf, i, absVal)
  end.

(** The conversion of [value] into [numBuf], least significant digit
    first: the buffer and the number of bytes used.  The local arrays
    ([numBuf], [hexBuf], [pFilename]) start out as NUL bytes here; the code
    reads no byte of them that it has not written. *)
Definition format_long (value : Z) : list ascii * Z :=
  let numBuf := replicate 20 NUL in
  let i := 0 in
  let '(isNeg, absVal) :=
    if value <? 0 then (true, to_ulong (to_long (- value)))
    else (false, to_ulong value) in
  let '(numBuf, i) :=
    if absVal =? 0 then (<[Z.to_nat i := "0"%char]> numBuf, to_short (i + 1))
    else let '(b, i', _) := digits_loop 19 absVal i numBuf in (b, i') in
  if isNeg then (<[Z.to_nat i := "-"%char]> numBuf, to_short (i + 1))
  else (numBuf, i).

(** [for (j = i - 1; j >= 0; j--) { count = 1; err = FSWrite(..., &numBuf[j]);
    if (err != noErr) return; }], with [n = j + 1]; answers whether the
    loop ran to its end. *)
Fixpoint write_reversed (n : nat) (numBuf : list ascii) : M bool :=
  match n with
  | O => mret true
  | S j =>
      ref ← get_RefNum;
      '(err, _) ← FSWrite ref 1 (drop j numBuf);
      if negb (err =? noErr) then mret false else write_reversed j numBuf
  end.

Definition DebugLogInt (message : cstr) (value : Z) : M unit :=
  enabled ← get_Enabled;
  ref ← get_RefNum;
  if negb enabled || (ref =? 0) || is_nil message then mret tt
  else
    let msgLen := MyStrLen message in
    ok ← (if msgLen >? 0 then
            '(err, _) ← FSWrite ref msgLen (deref message);
            mret (err =? noErr)
          else mret true);
    if negb ok then mret tt
    else
      let '(numBuf, i) := format_long value in
      finished ← write_reversed (Z.to_nat i) numBuf;
      if negb finished then mret tt
      else
        ref ← get_RefNum;
        FSWrite ref 1 [CR];;
        mret tt.

(** *** DebugLogHex *)

Definition hexChars : list ascii := chars "0123456789ABCDEF" ++ [NUL].

Definition DebugLogHex (message : cstr) (value : Z) : M unit :=
  enabled ← get_Enabled;
  ref ← get_RefNum;
  if negb enabled || (ref =? 0) || is_nil message then mret tt
  else
    let hexBuf := replicate 16 NUL in
    let msgLen := MyStrLen message in
    (if msgLen >? 0 then FSWrite ref msgLen (deref message);; mret tt
     else mret tt);;
    let hexBuf := <[0%nat := "0"%char]> hexBuf in
    let hexBuf := <[1%nat := "x"%char]> hexBuf in
    FSWrite ref 2 hexBuf;;
    let hexBuf :=
      <[0%nat := hexChars !!! Z.to_nat (Z.land (Z.shiftr value 4) 15)]>
        hexBuf in
    let hexBuf :=
      <[1%nat := hexChars !!! Z.to_nat (Z.land value 15)]> hexBuf in
    FSWrite ref 2 hexBuf;;
    FSWrite ref 1 [CR];;
    mret tt.

(** *** DebugLogFormat, DebugFlush, DebugClose, DebugIsEnabled *)

(** The variable arguments are never read. *)
Definition DebugLogFormat (format : cstr) : M unit :=
  if negb (is_nil format) then DebugLog format else mret tt.

Definition DebugFlush : M unit := mret tt.

Definition endMsg : list ascii := chars "DEBUG LOG CLOSED" ++ [CR].
Arguments endMsg : simpl never.

Definition DebugClose : M unit :=
  ref ← get_RefNum;
  (if negb (ref =? 0) then
     let count := MyStrLen (Some endMsg) in
     FSWrite ref count endMsg;;
     FSClose ref;;
     set_RefNum 0
   else mret tt);;
  set_Enabled false.

Definition DebugIsEnabled : M bool := get_Enabled.

End Logger.

(** ** Running the operations, observing the trace *)

Definition exec {W A : Type} (m : M (W:=W) A) (s : Sys W) : Sys W := snd (m s).
Definition result {W A : Type} (m : M (W:=W) A) (s : Sys W) : A := fst (m s).

(** The events a run has added to the trace it started from. *)
Definition events_since {W : Type} (s s' : Sys W) : list Event :=
  drop (length (trace s)) (trace s').

(** Calls to the File Manager, as opposed to the status signal. *)
Definition file_io (e : Event) : bool :=
  match e with EvSysBeep _ => false | _ => true end.

(** The bytes the Toolbox reports to have taken for file [refNum]. *)
Definition written_of (refNum : Z) (e : Event) : list ascii :=
  match e with
  | EvFSWrite r _ buf _ written =>
      if r =? refNum then take (Z.to_nat written) buf else []
  | _ => []
  end.

Definition written_to (refNum : Z) (evs : list Event) : list ascii :=
  concat (map (written_of refNum) evs).

(** The reference numbers opened and not yet closed along a trace. *)
Fixpoint remove_first (r : Z) (l : list Z) : list Z :=
  match l with
  | [] => []
  | x :: l' => if x =? r then l' else x :: remove_first r l'
  end.

Definition track_handles (open : list Z) (e : Event) : list Z :=
  match e with
  | EvFSOpen _ _ err r => if err =? noErr then open ++ [r] else open
  | EvFSClose r _ => remove_first r open
  | _ => open
  end.

Definition open_handles (evs : list Event) : list Z :=
  foldl track_handles [] evs.

(** ** Toolboxes to run the code against *)

(** Every call succeeds; the file opened has reference number 42. *)
Definition perfect : Toolbox unit :=
  {| tb_FSClose := fun w _ => (w, noErr);
     tb_FSDelete := fun w _ _ => (w, noErr);
     tb_Create := fun w _ _ _ _ => (w, noErr);
     tb_FSOpen := fun w _ _ => (w, (noErr, 42));
     tb_FSWrite := fun w _ count _ => (w, (noErr, count));
     tb_SysBeep := fun w _ => w |}.

(** The world counts the File Manager calls made so far; call number [n]
    (from 0) answers with the [n]-th entry of the script: an error code
    and, for [FSWrite], how many bytes fewer than requested are taken.
    Calls beyond the script succeed in full. *)
Definition scripted (script : list (OSErr * Z)) : Toolbox nat :=
  let answer (n : nat) : OSErr * Z := default (noErr, 0) (script !! n) in
  {| tb_FSClose := fun n _ => (S n, fst (answer n));
     tb_FSDelete := fun n _ _ => (S n, fst (answer n));
     tb_Create := fun n _ _ _ _ => (S n, fst (answer n));
     tb_FSOpen := fun n _ _ =>
       (S n, (fst (answer n), if fst (answer n) =? noErr then 42 else 0));
     tb_FSWrite := fun n _ count _ =>
       (S n, (fst (answer n), count - snd (answer n)));
     tb_SysBeep := fun n _ => n |}.

Definition ioErr : OSErr := -36.
Definition dskFulErr : OSErr := -34.

(** ** The preconditions of DebugLog, as the specification lists them *)

Inductive Precondition : Type :=
| LoggerEnabled
| HandlePresent
| MessageNonNull
| MessageNonEmpty.

(** The first precondition that does not hold, in the order "logger
    enabled; handle present; message non-null; message non-empty". *)
Definition first_failed {W : Type} (s : Sys W) (message : cstr)
    : option Precondition :=
  if negb (gDebugEnabled s) then Some LoggerEnabled
  else if gDebugRefNum s =? 0 then Some HandlePresent
  else match message with
       | None => Some MessageNonNull
       | Some msg =>
           if c_strlen msg =? 0 then Some MessageNonEmpty else None
       end.

(** The [SysBeep] argument at the site that rejects each of them. *)
Definition signal_of (p : Precondition) : Z :=
  match p with
  | LoggerEnabled => 5
  | HandlePresent => 6
  | MessageNonNull => 7
  | MessageNonEmpty => 8
  end.

(** ** What DebugInit did, read off its events *)

Definition create_succeeded (evs : list Event) : bool :=
  existsb (fun e => match e with
                    | EvCreate _ _ _ _ err => err =? noErr
                    | _ => false
                    end) evs.

Definition open_succeeded (evs : list Event) : bool :=
  existsb (fun e => match e with
                    | EvFSOpen _ _ err _ => err =? noErr
                    | _ => false
                    end) evs.

Definition header_written (evs : list Event) : bool :=
  existsb (fun e => match e with
                    | EvFSWrite _ _ buf err _ =>
                        (err =? noErr) && bool_decide (buf = headerMsg)
                    | _ => false
                    end) evs.

(** The File Manager calls that take a file name, with the name taken. *)
Inductive NameUse : Type := UseDelete | UseCreate | UseOpen.

Definition name_use (e : Event) : option (NameUse * list ascii) :=
  match e with
  | EvFSDelete n _ _ => Some (UseDelete, n)
  | EvCreate n _ _ _ _ => Some (UseCreate, n)
  | EvFSOpen n _ _ _ => Some (UseOpen, n)
  | _ => None
  end.

Definition name_uses (evs : list Event) : list (NameUse * list ascii) :=
  omap name_use evs.


(** ** Text and numbers *)

(** The text of a C string as the logger measures it. *)
Definition text_of (p : cstr) : list ascii :=
  take (Z.to_nat (MyStrLen p)) (deref p).

(** The text of a C string: its bytes before the first NUL. *)
Definition c_text (s : list ascii) : list ascii :=
  take (Z.to_nat (c_strlen s)) s.

(** What [DebugLogInt] sends after the prefix: the used part of [numBuf],
    last byte first. *)
Definition long_text (value : Z) : list ascii :=
  let '(numBuf, i) := format_long value in
  reverse (take (Z.to_nat i) numBuf).

Definition is_digit (c : ascii) : bool :=
  (48 <=? Z_of_char c) && (Z_of_char c <=? 57).

Definition digit_value (c : ascii) : Z := Z_of_char c - 48.

(** The number a string of decimal digits denotes. *)
Definition decimal_value (ds : list ascii) : Z :=
  foldl (fun acc c => 10 * acc + digit_value c) 0 ds.

(** [text] is the decimal numeral of [v]: a minus sign exactly when [v] is
    negative, then the digits of the magnitude without leading zeros. *)
Definition decimal_of (v : Z) (text : list ascii) : Prop :=
  exists digits,
    text = (if v <? 0 then ["-"%char] else []) ++ digits
    /\ digits <> []
    /\ forallb is_digit digits = true
    /\ decimal_value digits = Z.abs v
    /\ (v <> 0 -> head digits <> Some "0"%char).

(** The digits the loop of [DebugLogInt] produces for [absVal], in the
    order it produces them. *)
Fixpoint lsd_digits (fuel : nat) (absVal : Z) : list ascii :=
  match fuel with
  | O => []
  | S fuel' =>
      if absVal >? 0
      then char_of_Z (Z_of_char "0" + absVal mod 10)
           :: lsd_digits fuel' (absVal / 10)
      else []
  end.

(** What [DebugLogHex] sends after ["0x"]. *)
Definition hex_text (value : Z) : list ascii :=
  [hexChars !!! Z.to_nat (Z.land (Z.shiftr value 4) 15);
   hexChars !!! Z.to_nat (Z.land value 15)].

Definition is_upper_hex (c : ascii) : bool :=
  is_digit c || ((65 <=? Z_of_char c) && (Z_of_char c <=? 70)).

Definition hex_value (c : ascii) : Z :=
  if is_digit c then Z_of_char c - 48 else Z_of_char c - 55.

(** [evs] are writes to [refNum], one per buffer of [bufs], each asking
    for the whole buffer. *)
Definition writes_of (refNum : Z) (bufs : list (list ascii))
    (evs : list Event) : Prop :=
  Forall2 (fun e buf => exists err written,
             e = EvFSWrite refNum (Z.of_nat (length buf)) buf err written)
    evs bufs.

(** An [FSWrite] that never fails and always takes every byte. *)
Definition reliable {W : Type} (tb : Toolbox W) : Prop :=
  forall w refNum count buf,
    snd (tb_FSWrite tb w refNum count buf) = (noErr, count).

(** A write of the whole of [buf] that the Toolbox reports as done. *)
Definition complete_write (refNum : Z) (buf : list ascii) : Event :=
  EvFSWrite refNum (Z.of_nat (length buf)) buf noErr (Z.of_nat (length buf)).

(** Events that neither open nor close a file. *)
Definition quiet (e : Event) : bool :=
  match e with
  | EvFSWrite _ _ _ _ _ | EvSysBeep _ => true
  | _ => false
  end.

(** From [s] to [s'] the globals are unchanged and only quiet events were
    added. *)
Definition only_logs {W : Type} (s s' : Sys W) : Prop :=
  gDebugRefNum s' = gDebugRefNum s
  /\ gDebugEnabled s' = gDebugEnabled s
  /\ exists evs, trace s' = trace s ++ evs /\ forallb quiet evs = true.

(** A computation that only logs, whatever the state it starts from. *)
Definition logs_only {W A : Type} (m : M (W:=W) A) : Prop :=
  forall s, only_logs s (exec m s).

(** ** Sequences of calls and the state invariant *)

Inductive Op : Type :=
| OpInit (filename : cstr)
| OpLog (message : cstr)
| OpLogInt (message : cstr) (value : Z)
| OpLogHex (message : cstr) (value : Z)
| OpLogFormat (format : cstr)
| OpFlush
| OpClose
| OpIsEnabled.

Definition run_op {W : Type} (tb : Toolbox W) (s : Sys W) (o : Op) : Sys W :=
  match o with
  | OpInit filename => exec (DebugInit tb filename) s
  | OpLog message => exec (DebugLog tb message) s
  | OpLogInt message value => exec (DebugLogInt tb message value) s
  | OpLogHex message value => exec (DebugLogHex tb message value) s
  | OpLogFormat format => exec (DebugLogFormat tb format) s
  | OpFlush => exec (DebugFlush (W:=W)) s
  | OpClose => exec (DebugClose tb) s
  | OpIsEnabled => exec (DebugIsEnabled (W:=W)) s
  end.

Definition run {W : Type} (tb : Toolbox W) (ops : list Op) (s : Sys W)
    : Sys W :=
  foldl (run_op tb) s ops.

(** The handle the logger holds: none when [gDebugRefNum] is 0. *)
Definition handle_list (refNum : Z) : list Z :=
  if refNum =? 0 then [] else [refNum].

(** Along [evs], starting with the handles [open], never more than one
    handle is open. *)
Fixpoint never_two (open : list Z) (evs : list Event) : bool :=
  match evs with
  | [] => true
  | e :: evs' =>
      let open' := track_handles open e in
      (length open' <=? 1)%nat && never_two open' evs'
  end.

Definition Inv {W : Type} (s : Sys W) : Prop :=
  (gDebugEnabled s = true -> gDebugRefNum s <> 0)
  /\ open_handles (trace s) = handle_list (gDebugRefNum s)
  /\ never_two [] (trace s) = true.

(** The File Manager never hands out 0 as the reference number of a file
    it opened. *)
Definition opens_nonzero {W : Type} (tb : Toolbox W) : Prop :=
  forall w name vRefNum,
    fst (snd (tb_FSOpen tb w name vRefNum)) = noErr ->
    snd (snd (tb_FSOpen tb w name vRefNum)) <> 0.

(** ** Further readings of the events *)

(** The status signals among the events. *)
Definition beeps (evs : list Event) : list Z :=
  omap (fun e => match e with EvSysBeep n => Some n | _ => None end) evs.

(** The File Manager calls among the events, by kind. *)
Inductive CallKind : Type := KClose | KDelete | KCreate | KOpen | KWrite.

Definition call_kind (e : Event) : option CallKind :=
  match e with
  | EvFSClose _ _ => Some KClose
  | EvFSDelete _ _ _ => Some KDelete
  | EvCreate _ _ _ _ _ => Some KCreate
  | EvFSOpen _ _ _ _ => Some KOpen
  | EvFSWrite _ _ _ _ _ => Some KWrite
  | EvSysBeep _ => None
  end.

Definition calls (evs : list Event) : list CallKind := omap call_kind evs.

(** The outcome of [DebugInit] as its answers tell it: the argument of the
    [SysBeep] at the site the call ends at. *)
Definition init_signal (filename : cstr) (evs : list Event) : Z :=
  match filename with
  | None => 1
  | Some _ =>
      if negb (create_succeeded evs) then 2
      else if negb (open_succeeded evs) then 3
      else if negb (header_written evs) then 4
      else 10
  end.

(** The error a write answered. *)
Definition write_failed (e : Event) : bool :=
  match e with
  | EvFSWrite _ _ _ err _ => negb (err =? noErr)
  | _ => false
  end.

(** The File Manager calls [DebugInit] makes behind the closing of an old
    file, for each outcome. *)
Definition init_calls (signal : Z) : list CallKind :=
  if signal =? 1 then []
  else if signal =? 2 then [KDelete; KCreate]
  else if signal =? 3 then [KDelete; KCreate; KOpen]
  else if signal =? 4 then [KDelete; KCreate; KOpen; KWrite; KClose]
  else [KDelete; KCreate; KOpen; KWrite].

(** ** Writing a record piece by piece *)

(** Write the buffers in order, each in full, and stop behind the first
    write that answers an error; the answer tells whether all were
    written. *)
Fixpoint write_until_error {W : Type} (tb : Toolbox W) (refNum : Z)
    (bufs : list (list ascii)) : M (W:=W) bool :=
  match bufs with
  | [] => mret true
  | buf :: rest =>
      '(err, _) ← FSWrite tb refNum (Z.of_nat (length buf)) buf;
      if negb (err =? noErr) then mret false
      else write_until_error tb refNum rest
  end.

(** The pieces of the record of [DebugLogInt]: the prefix unless empty,
    the characters of the numeral one by one, the carriage return. *)
Definition int_record_writes (prefix : list ascii) (value : Z)
    : list (list ascii) :=
  (if MyStrLen (Some prefix) >? 0 then [text_of (Some prefix)] else [])
  ++ map (fun c => [c]) (long_text value) ++ [[CR]].

(** Reading a decimal numeral back. *)
Definition read_decimal (text : list ascii) : Z :=
  match text with
  | c :: digits =>
      if Ascii.eqb c "-" then - decimal_value digits else decimal_value text
  | [] => 0
  end.

(** ** Sessions *)

(** [DebugInit] and [DebugClose], as opposed to the calls that log. *)
Definition lifecycle_op (o : Op) : bool :=
  match o with
  | OpInit _ | OpClose => true
  | _ => false
  end.

(** A logging call whose integer argument is a [long]. *)
Definition logging_op (o : Op) : Prop :=
  lifecycle_op o = false
  /\ match o with OpLogInt _ value => long_range value | _ => True end.

(** The record a logging call adds to the file when nothing fails. *)
Definition record_of (o : Op) : list ascii :=
  match o with
  | OpLog message | OpLogFormat message =>
      if MyStrLen message =? 0 then [] else text_of message ++ [CR]
  | OpLogInt (Some prefix) value =>
      text_of (Some prefix) ++ long_text value ++ [CR]
  | OpLogHex (Some prefix) value =>
      text_of (Some prefix) ++ chars "0x" ++ hex_text value ++ [CR]
  | _ => []
  end.

(** A Toolbox on which nothing the logger asks for fails. *)
Definition cooperative {W : Type} (tb : Toolbox W) : Prop :=
  reliable tb
  /\ opens_nonzero tb
  /\ (forall w name vRefNum creator fileType,
        snd (tb_Create tb w name vRefNum creator fileType) = noErr)
  /\ (forall w name vRefNum, fst (snd (tb_FSOpen tb w name vRefNum)) = noErr).

(** ** Stepping through the state monad *)

Ltac step_toolbox :=
  match goal with
  | |- context [tb_FSClose ?tb ?w ?r] =>
      destruct (tb_FSClose tb w r) as [? ?] eqn:?
  | |- context [tb_FSDelete ?tb ?w ?n ?v] =>
      destruct (tb_FSDelete tb w n v) as [? ?] eqn:?
  | |- context [tb_Create ?tb ?w ?n ?v ?c ?t] =>
      destruct (tb_Create tb w n v c t) as [? ?] eqn:?
  | |- context [tb_FSOpen ?tb ?w ?n ?v] =>
      destruct (tb_FSOpen tb w n v) as [? [? ?]] eqn:?
  | |- context [tb_FSWrite ?tb ?w ?r ?c ?b] =>
      destruct (tb_FSWrite tb w r c b) as [? [? ?]] eqn:?
  end.

Ltac unfold_sys :=
  unfold exec, result, mbind, M_bind, mret, M_ret, get_RefNum, get_Enabled,
    set_RefNum, set_Enabled, FSClose, FSDelete, Create, FSOpen_gDebugRefNum,
    FSWrite, SysBeep, called in *.

Ltac sys_simpl :=
  cbn [fst snd world trace gDebugRefNum gDebugEnabled negb orb andb].

Ltac since :=
  unfold events_since; simpl trace; rewrite <- ?app_assoc;
  rewrite ?drop_app_length; simpl app.

Ltac step_cond :=
  match goal with
  | |- context [?e =? 0] =>
      is_var e; let E := fresh "E" in destruct (e =? 0) eqn:E
  end.

Ltac init_run :=
  unfold DebugInit; unfold_sys; unfold noErr in *;
  change (MyStrLen (Some headerMsg)) with 22;
  change (take (Z.to_nat 22) headerMsg) with headerMsg;
  sys_simpl;
  repeat (first [step_toolbox | step_cond]; sys_simpl).

Ltac use_conds :=
  repeat match goal with
         | H : (?e =? 0) = _ |- _ => rewrite ?H; revert H
         end;
  intros.

Ltac init_follow :=
  repeat (first
            [ match goal with H : _ = (_, _) |- _ => rewrite H end
            | match goal with H : (_ =? 0) = _ |- _ => rewrite H end
            | step_cond ];
          sys_simpl).

Ltac init_finish :=
  unfold DebugIsEnabled, get_Enabled, open_handles, create_succeeded,
    open_succeeded, header_written;
  repeat (progress
    (cbn [fst snd gDebugEnabled gDebugRefNum foldl track_handles
          remove_first app existsb andb orb negb];
     unfold noErr in *; use_conds;
     rewrite ?Z.eqb_refl,
       ?(bool_decide_eq_true_2 (headerMsg = headerMsg) eq_refl)));
  repeat match goal with
         | H : (?e =? 0) = true |- _ => apply Z.eqb_eq in H; subst e
         end.

(** * Properties *)

(** ** The embedding on concrete inputs *)

Example MyStrLen_abc : MyStrLen (lit "abc") = 3.
Proof. reflexivity. Qed.

Example MyStrLen_stops_at_NUL :
  MyStrLen (Some (chars "ab" ++ [NUL] ++ chars "cd")) = 2.
Proof. reflexivity. Qed.

Example MyStrLen_nil : MyStrLen None = 0.
Proof. reflexivity. Qed.

Example to_pascal_debug_txt :
  take 10 (to_pascal (chars "debug.txt")) = char_of_Z 9 :: chars "debug.txt"
  /\ length (to_pascal (chars "debug.txt")) = 256%nat.
Proof. split; reflexivity. Qed.

Example format_long_minus_42 :
  format_long (-42)
  = (chars "24-" ++ replicate 17 NUL, 3).
Proof. reflexivity. Qed.

Example DebugInit_trace :
  trace (exec (DebugInit perfect (lit "debug.txt")) (initial tt))
  = [EvFSDelete (chars "debug.txt") 0 noErr;
     EvCreate (chars "debug.txt") 0 "ttxt" "TEXT" noErr;
     EvFSOpen (chars "debug.txt") 0 noErr 42;
     EvFSWrite 42 22 headerMsg noErr 22;
     EvSysBeep 10].
Proof. reflexivity. Qed.

(** A whole session, and the file it leaves. *)
Example session_file :
  written_to 42
    (trace (run perfect
              [OpInit (lit "debug.txt"); OpLog (lit "hello");
               OpLogInt (lit "n=") (-42); OpLogHex (lit "b=") 511;
               OpLogFormat (lit "hello %d"); OpFlush; OpClose]
              (initial tt)))
  = chars "DEBUG LOG INITIALIZED" ++ [CR] ++ chars "hello" ++ [CR]
    ++ chars "n=-42" ++ [CR] ++ chars "b=0xFF" ++ [CR]
    ++ chars "hello %d" ++ [CR] ++ chars "DEBUG LOG CLOSED" ++ [CR].
Proof. reflexivity. Qed.

(** A disk that fails on the third digit of [DebugLogInt]. *)
Example DebugLogInt_aborts :
  let tb := scripted [(noErr, 0); (noErr, 0); (noErr, 0); (ioErr, 1)] in
  let s := exec (DebugLogInt tb (lit "n=") 1234) (mkSys 42 true 0%nat []) in
  written_to 42 (trace s) = chars "n=12" /\ gDebugEnabled s = true.
Proof. split; reflexivity. Qed.


(** ** MyStrLen *)

Lemma to_short_id z : - 2 ^ 15 <= z < 2 ^ 15 -> to_short z = z.
Proof.
  intros H. unfold to_short, wrap_signed.
  rewrite Z.mod_small; lia.
Qed.

Lemma c_strlen_nonneg s : 0 <= c_strlen s.
Proof. induction s as [|c s IH]; simpl; [lia|]. destruct (is_nul c); lia. Qed.

Lemma c_strlen_le_length s : c_strlen s <= Z.of_nat (length s).
Proof.
  induction s as [|c s IH]; simpl length; simpl c_strlen; [lia|].
  destruct (is_nul c); lia.
Qed.

Lemma MyStrLen_loop_min s : forall len,
  0 <= len <= 32000 ->
  MyStrLen_loop s len = Z.min (len + c_strlen s) 32000.
Proof.
  induction s as [|c s IH]; intros len Hlen; simpl.
  - lia.
  - pose proof (c_strlen_nonneg s) as Hs.
    destruct (is_nul c); simpl.
    + lia.
    + destruct (Z.ltb_spec len 32000) as [Hlt|Hge].
      * rewrite to_short_id by lia. rewrite IH by lia. lia.
      * lia.
Qed.

Lemma MyStrLen_min s : MyStrLen (Some s) = Z.min (c_strlen s) 32000.
Proof. unfold MyStrLen. rewrite MyStrLen_loop_min by lia. reflexivity. Qed.

Lemma MyStrLen_range p : 0 <= MyStrLen p <= 32000.
Proof.
  destruct p as [s|]; [|unfold MyStrLen; lia].
  rewrite MyStrLen_min. pose proof (c_strlen_nonneg s). lia.
Qed.

Lemma MyStrLen_le_length s : MyStrLen (Some s) <= Z.of_nat (length s).
Proof. rewrite MyStrLen_min. pose proof (c_strlen_le_length s). lia. Qed.

Section DebugLogProps.

Context {W : Type} (tb : Toolbox W).

Lemma signal_of_inj p q : signal_of p = signal_of q -> p = q.
Proof. destruct p, q; simpl; intros H; congruence. Qed.

Lemma DebugLog_rejects (s : Sys W) message p :
  first_failed s message = Some p ->
  exec (DebugLog tb message) s
  = called (tb_SysBeep tb (world s) (signal_of p)) (EvSysBeep (signal_of p)) s.
Proof.
  unfold first_failed, DebugLog. intros H.
  destruct s as [ref enabled w tr]. unfold_sys. simpl in *.
  destruct enabled; simpl in *.
  - destruct (ref =? 0); simpl in *.
    + injection H as <-. reflexivity.
    + destruct message as [msg|].
      * rewrite MyStrLen_min.
        destruct (Z.eqb_spec (c_strlen msg) 0) as [E|E]; [|discriminate].
        injection H as <-. rewrite E. reflexivity.
      * injection H as <-. reflexivity.
  - injection H as <-. reflexivity.
Qed.

Lemma first_failed_when (s : Sys W) message :
  gDebugEnabled s = false \/ message = None \/ c_strlen (deref message) = 0 ->
  exists p, first_failed s message = Some p.
Proof.
  unfold first_failed. intros H.
  destruct (gDebugEnabled s); simpl; [|eauto].
  destruct (gDebugRefNum s =? 0); [eauto|].
  destruct message as [msg|]; [|eauto].
  destruct H as [H|[H|H]]; try discriminate.
  simpl in H. rewrite H. simpl. eauto.
Qed.

(** C3.  [DebugLog] tests "logger enabled", "handle present", "message
    non-null", "message non-empty" in this order.  The first test that
    fails ends the call with one [SysBeep], whose argument tells the four
    tests apart, and with no File Manager call and both globals unchanged.
    So a call while disabled, with a nil message or with an empty message
    writes no byte to any file. *)
Theorem DebugLog_preconditions (s : Sys W) (message : cstr) :
  let s' := exec (DebugLog tb message) s in
  (forall p, first_failed s message = Some p ->
     events_since s s' = [EvSysBeep (signal_of p)]
     /\ gDebugRefNum s' = gDebugRefNum s
     /\ gDebugEnabled s' = gDebugEnabled s)
  /\ (forall p q, signal_of p = signal_of q -> p = q)
  /\ (gDebugEnabled s = false \/ message = None
      \/ c_strlen (deref message) = 0 ->
      filter file_io (events_since s s') = []
      /\ forall refNum, written_to refNum (events_since s s') = []).
Proof.
  intros s'. split; [|split].
  - intros p Hp. subst s'. rewrite (DebugLog_rejects _ _ _ Hp).
    unfold called. since. auto.
  - apply signal_of_inj.
  - intros H. destruct (first_failed_when _ _ H) as [p Hp].
    subst s'. rewrite (DebugLog_rejects _ _ _ Hp).
    unfold called. since. split; [reflexivity|]. intros r. reflexivity.
Qed.

(** C4.  Once the preconditions hold, [DebugLog] writes the message.  If
    that write answers an error or stores a count other than the message
    length, the call ends with [SysBeep(20)] and the terminator is not
    written; if the terminator write answers an error the call ends with
    [SysBeep(21)].  Either way the logger stays enabled on the same
    reference number; the function answers nothing to its caller. *)
Theorem DebugLog_write_failures (s : Sys W) (msg : list ascii) :
  first_failed s (Some msg) = None ->
  let ref := gDebugRefNum s in
  let n := MyStrLen (Some msg) in
  let '(w1, (err, count)) :=
    tb_FSWrite tb (world s) ref n (take (Z.to_nat n) msg) in
  let '(w2, (err2, count2)) := tb_FSWrite tb w1 ref 1 [CR] in
  let message_write := EvFSWrite ref n (take (Z.to_nat n) msg) err count in
  let terminator_write := EvFSWrite ref 1 [CR] err2 count2 in
  let s' := exec (DebugLog tb (Some msg)) s in
  (gDebugEnabled s' = true /\ gDebugRefNum s' = ref)
  /\ (err <> noErr \/ count <> n ->
      events_since s s' = [message_write; EvSysBeep 20])
  /\ (err = noErr -> count = n -> err2 <> noErr ->
      events_since s s' = [message_write; terminator_write; EvSysBeep 21])
  /\ (err = noErr -> count = n -> err2 = noErr ->
      events_since s s' = [message_write; terminator_write])
  /\ (20 <> 21 /\ forall p, signal_of p <> 20 /\ signal_of p <> 21).
Proof.
  unfold first_failed, DebugLog. intros H.
  destruct s as [ref enabled w tr]. simpl in H. simpl gDebugRefNum.
  simpl world.
  destruct enabled; [|discriminate]. simpl in H.
  destruct (Z.eqb_spec ref 0) as [|Href]; [discriminate|].
  assert (Hn : (MyStrLen (Some msg) =? 0) = false).
  { rewrite MyStrLen_min.
    destruct (Z.eqb_spec (c_strlen msg) 0) as [E|E]; [discriminate|].
    pose proof (c_strlen_nonneg msg). apply Z.eqb_neq. lia. }
  clear H.
  unfold_sys. simpl. rewrite (proj2 (Z.eqb_neq _ _) Href). rewrite Hn.
  set (n := MyStrLen (Some msg)).
  destruct (tb_FSWrite tb w ref n (take (Z.to_nat n) msg))
    as [w1 [err count]] eqn:E1.
  destruct (tb_FSWrite tb w1 ref 1 [CR]) as [w2 [err2 count2]] eqn:E2.
  cbv zeta. simpl. rewrite ?E1. simpl.
  assert (Hsig : 20 <> 21 /\ forall p, signal_of p <> 20 /\ signal_of p <> 21).
  { split; [lia|]. intros []; simpl; lia. }
  unfold noErr.
  destruct (Z.eqb_spec err 0) as [He|He]; simpl.
  - destruct (Z.eqb_spec count n) as [Hc|Hc]; simpl.
    + rewrite ?E2. simpl.
      destruct (Z.eqb_spec err2 0) as [He2|He2]; simpl; since;
        repeat split; auto; try congruence; try tauto; try apply Hsig.
    + since. repeat split; auto; try congruence; try tauto; try apply Hsig.
  - since. repeat split; auto; try congruence; try tauto; try apply Hsig.
Qed.

End DebugLogProps.

Section DebugCloseProps.

Context {W : Type} (tb : Toolbox W).

Lemma MyStrLen_endMsg : MyStrLen (Some endMsg) = 17.
Proof. reflexivity. Qed.

(** C8.  With a reference number at hand [DebugClose] writes the 17 bytes
    of "DEBUG LOG CLOSED\r" and then closes the file, whatever the write
    answered; with none it calls nothing.  It always ends with
    [gDebugEnabled] false and [gDebugRefNum] 0, so a second [DebugClose]
    right after changes nothing at all. *)
Theorem DebugClose_footer_then_release (s : Sys W) :
  let ref := gDebugRefNum s in
  let '(w1, (err, written)) := tb_FSWrite tb (world s) ref 17 endMsg in
  let '(w2, err') := tb_FSClose tb w1 ref in
  let s' := exec (DebugClose tb) s in
  gDebugEnabled s' = false
  /\ gDebugRefNum s' = 0
  /\ (ref <> 0 ->
      events_since s s' = [EvFSWrite ref 17 endMsg err written;
                           EvFSClose ref err']
      /\ world s' = w2)
  /\ (ref = 0 -> events_since s s' = [] /\ world s' = world s)
  /\ exec (DebugClose tb) s' = s'.
Proof.
  destruct s as [ref enabled w tr]. cbv zeta. sys_simpl.
  destruct (tb_FSWrite tb w ref 17 endMsg) as [w1 [err written]] eqn:E1.
  destruct (tb_FSClose tb w1 ref) as [w2 err'] eqn:E2.
  unfold DebugClose. unfold_sys. sys_simpl.
  destruct (Z.eqb_spec ref 0) as [->|Href]; sys_simpl.
  - since. rewrite drop_all. repeat split; auto; congruence.
  - rewrite MyStrLen_endMsg.
    change (take (Z.to_nat 17) endMsg) with endMsg.
    rewrite ?E1. sys_simpl. rewrite ?E2. sys_simpl. since.
    repeat split; auto; congruence.
Qed.

End DebugCloseProps.

(** ** The C name as a Pascal string *)

Lemma Z_of_char_of_Z z : 0 <= z < 256 -> Z_of_char (char_of_Z z) = z.
Proof.
  intros H. unfold Z_of_char, char_of_Z, to_uchar.
  rewrite Z.mod_small by (change (2 ^ 8) with 256; lia).
  rewrite N_ascii_embedding.
  - apply Z2N.id. lia.
  - change 256%N with (Z.to_N 256). apply Z2N.inj_lt; lia.
Qed.

Lemma copy_name_length name len buf :
  length (copy_name name len buf) = length buf.
Proof.
  unfold copy_name. generalize (Z.to_nat len) as k.
  induction k as [|k IH]; [reflexivity|].
  rewrite seq_S, foldl_snoc, length_insert. exact IH.
Qed.

Lemma copy_name_lookup name len buf (j : nat) :
  copy_name name len buf !! j
  = if decide ((1 <= j <= Z.to_nat len)%nat /\ (j < length buf)%nat)
    then Some (name !!! (j - 1)%nat) else buf !! j.
Proof.
  pose proof (copy_name_length name) as Hlength.
  unfold copy_name in *. generalize (Z.to_nat len) as k.
  induction k as [|k IH].
  - simpl. case_decide; [lia|reflexivity].
  - rewrite seq_S, foldl_snoc. simpl Nat.add.
    rewrite list_lookup_insert, IH.
    pose proof (Hlength (Z.of_nat k) buf) as Hk.
    rewrite Nat2Z.id in Hk. rewrite Hk.
    repeat case_decide; try lia; try reflexivity.
    destruct_and!. subst j. do 2 f_equal. lia.
Qed.

(** Whatever the name, the Pascal string handed to the File Manager holds
    its first [min (strlen, 255)] bytes. *)
Lemma to_pascal_text name :
  pstr_text (to_pascal name)
  = take (Z.to_nat (Z.min (c_strlen name) 255)) name.
Proof.
  unfold pstr_text, to_pascal.
  pose proof (MyStrLen_range (Some name)) as Hr.
  pose proof (MyStrLen_le_length name) as Hl.
  pose proof (MyStrLen_min name) as Hm.
  set (n := MyStrLen (Some name)) in *.
  set (len := if n >? 255 then 255 else n).
  assert (Hlen : len = Z.min (c_strlen name) 255).
  { subst len. destruct (Z.gtb_spec n 255); lia. }
  assert (Hlen' : 0 <= len <= 255 /\ len <= Z.of_nat (length name)).
  { subst len. destruct (Z.gtb_spec n 255); lia. }
  rewrite <- Hlen. clear Hlen Hm.
  set (buf := <[0%nat:=char_of_Z len]> (replicate 256 NUL)).
  assert (Hbuf : length buf = 256%nat).
  { subst buf. rewrite length_insert, length_replicate. reflexivity. }
  assert (H0 : copy_name name len buf !!! 0%nat = char_of_Z len).
  { apply list_lookup_total_correct. rewrite copy_name_lookup.
    case_decide; [lia|]. subst buf.
    apply list_lookup_insert_eq. rewrite length_replicate. lia. }
  rewrite H0, Z_of_char_of_Z by lia.
  apply list_eq. intros i.
  rewrite !lookup_take, lookup_drop, copy_name_lookup, Hbuf.
  repeat case_decide; try lia; try reflexivity.
  replace (1 + i - 1)%nat with i by lia.
  symmetry. apply list_lookup_lookup_total_lt. lia.
Qed.

(** ** DebugInit *)

Section DebugInitProps.

Context {W : Type} (tb : Toolbox W).


(** C1.  The answers are those the Toolbox gives along the call: to the
    [FSClose] of an old file, then to [FSDelete], [Create], [FSOpen] and
    the [FSWrite] of the 22 bytes of the header to the reference number
    [FSOpen] stored.  [DebugInit] answers [true], and [DebugIsEnabled]
    right after answers [true], exactly when the name is not nil and
    [Create], [FSOpen] and that [FSWrite] have all answered [noErr]; the
    logger is then enabled on the reference number [FSOpen] stored, which
    is the one file open, and the calls made are exactly these, ended by
    [SysBeep(10)].  Otherwise [DebugInit] answers [false], the logger is
    disabled with [gDebugRefNum] 0, the call has stopped behind the first
    of the three that failed, and a file it had opened has been closed
    again. *)
Theorem DebugInit_success_iff (s : Sys W) (filename : cstr) :
  let ref0 := gDebugRefNum s in
  let '(wc, e_old) := tb_FSClose tb (world s) ref0 in
  let w0 := if ref0 =? 0 then world s else wc in
  let closing := if ref0 =? 0 then [] else [EvFSClose ref0 e_old] in
  let n := pstr_text (to_pascal (deref filename)) in
  let '(w1, e_delete) := tb_FSDelete tb w0 n 0 in
  let '(w2, e_create) := tb_Create tb w1 n 0 "ttxt" "TEXT" in
  let '(w3, (e_open, ref)) := tb_FSOpen tb w2 n 0 in
  let '(w4, (e_write, written)) := tb_FSWrite tb w3 ref 22 headerMsg in
  let '(w5, e_close) := tb_FSClose tb (tb_SysBeep tb w4 4) ref in
  let delete := EvFSDelete n 0 e_delete in
  let create := EvCreate n 0 "ttxt" "TEXT" e_create in
  let open := EvFSOpen n 0 e_open ref in
  let header := EvFSWrite ref 22 headerMsg e_write written in
  let ok := negb (is_nil filename) && (e_create =? noErr)
            && (e_open =? noErr) && (e_write =? noErr) in
  let r := result (DebugInit tb filename) s in
  let s' := exec (DebugInit tb filename) s in
  let evs := events_since s s' in
  r = ok
  /\ result DebugIsEnabled s' = ok
  /\ (ok = true ->
      gDebugEnabled s' = true
      /\ gDebugRefNum s' = ref
      /\ world s' = tb_SysBeep tb w4 10
      /\ evs = closing ++ [delete; create; open; header; EvSysBeep 10]
      /\ open_handles evs = [ref])
  /\ (ok = false ->
      gDebugEnabled s' = false
      /\ gDebugRefNum s' = 0
      /\ open_handles evs = []
      /\ evs = closing
               ++ (if is_nil filename then [EvSysBeep 1]
                   else if negb (e_create =? noErr)
                   then [delete; create; EvSysBeep 2]
                   else if negb (e_open =? noErr)
                   then [delete; create; open; EvSysBeep 3]
                   else [delete; create; open; header; EvSysBeep 4;
                         EvFSClose ref e_close]))
  /\ r = create_succeeded evs && open_succeeded evs && header_written evs.
Proof.
  destruct s as [ref0 enabled w tr]. cbv zeta. sys_simpl.
  destruct (tb_FSClose tb w ref0) as [wc e_old] eqn:Hold.
  destruct (ref0 =? 0) eqn:Eref.
  all: destruct (tb_FSDelete tb _ (pstr_text (to_pascal (deref filename))) 0)
         as [w1 e_delete] eqn:Hdelete.
  all: destruct (tb_Create tb w1 _ 0 "ttxt" "TEXT") as [w2 e_create] eqn:Hcreate.
  all: destruct (tb_FSOpen tb w2 _ 0) as [w3 [e_open ref]] eqn:Hopen.
  all: destruct (tb_FSWrite tb w3 ref 22 headerMsg)
         as [w4 [e_write written]] eqn:Hwrite.
  all: destruct (tb_FSClose tb (tb_SysBeep tb w4 4) ref)
         as [w5 e_close] eqn:Hclose.
  all: destruct filename as [name|];
       [change (deref (Some name)) with name in *
       |change (deref None) with (@nil ascii) in *];
       cbn [is_nil negb andb] in *.
  all: unfold DebugInit; unfold_sys; unfold noErr in *;
       change (MyStrLen (Some headerMsg)) with 22;
       change (take (Z.to_nat 22) headerMsg) with headerMsg;
       sys_simpl; init_follow.
  all: since; init_finish.
  all: repeat split; intros; try discriminate; try reflexivity.
Qed.

Lemma DebugInit_name_uses (s : Sys W) (name : list ascii) :
  let evs := events_since s (exec (DebugInit tb (Some name)) s) in
  let n := pstr_text (to_pascal name) in
  name_uses evs
  = [(UseDelete, n); (UseCreate, n)]
    ++ (if create_succeeded evs then [(UseOpen, n)] else []).
Proof.
  destruct s as [ref enabled w tr]. cbv zeta.
  init_run; since; init_finish; reflexivity.
Qed.

(** C7.  A name of more than 255 bytes is cut to its first 255 bytes, and
    this is the name [FSDelete] and [Create] are called with, and [FSOpen]
    too when [Create] succeeded; no other name is used. *)
Theorem DebugInit_truncates_name (s : Sys W) (name : list ascii) :
  255 < c_strlen name ->
  let evs := events_since s (exec (DebugInit tb (Some name)) s) in
  let short := take 255 name in
  length short = 255%nat
  /\ name_uses evs
     = [(UseDelete, short); (UseCreate, short)]
       ++ (if create_succeeded evs then [(UseOpen, short)] else []).
Proof.
  intros Hlong evs short. split.
  - subst short. rewrite length_take.
    pose proof (c_strlen_le_length name). lia.
  - subst evs. rewrite DebugInit_name_uses, to_pascal_text.
    replace (Z.to_nat (Z.min (c_strlen name) 255)) with 255%nat by lia.
    reflexivity.
Qed.


End DebugInitProps.

(** ** DebugLogInt: the conversion to decimal *)

Lemma to_ulong_id z : 0 <= z < 2 ^ 32 -> to_ulong z = z.
Proof. intros H. unfold to_ulong. apply Z.mod_small. exact H. Qed.

(** Negating a negative [long] and converting to [unsigned long] gives the
    magnitude, also for [LONG_MIN], where the negation wraps around. *)
Lemma magnitude_of_negative v :
  long_range v -> v < 0 -> to_ulong (to_long (- v)) = - v.
Proof.
  unfold long_range, to_ulong, to_long, wrap_signed.
  change (2 ^ (32 - 1)) with 2147483648. change (2 ^ 31) with 2147483648.
  change (2 ^ 32) with 4294967296.
  intros Hr Hneg.
  destruct (Z.eq_dec v (-2147483648)) as [->|Hne].
  - reflexivity.
  - rewrite (Z.mod_small (- v + 2147483648)) by lia.
    rewrite Z.mod_small; lia.
Qed.

(** The same magnitude comes out of a negation done on [unsigned long]. *)
Lemma magnitude_is_unsigned_negation v :
  long_range v -> v < 0 ->
  to_ulong (to_long (- v)) = to_ulong (- to_ulong v).
Proof.
  intros Hr Hneg. rewrite magnitude_of_negative by assumption.
  unfold long_range, to_ulong in *.
  change (2 ^ 31) with 2147483648 in Hr. change (2 ^ 32) with 4294967296.
  replace (v mod 4294967296) with (v + 4294967296).
  - replace (- (v + 4294967296)) with (- v + (-1) * 4294967296) by lia.
    rewrite Z.mod_add by lia. rewrite Z.mod_small; lia.
  - symmetry. rewrite <- (Z.mod_add v 1) by lia. rewrite Z.mod_small; lia.
Qed.

Lemma digit_char d :
  0 <= d <= 9 ->
  Z_of_char (char_of_Z (Z_of_char "0" + d)) = 48 + d.
Proof.
  intros H. change (Z_of_char "0") with 48. apply Z_of_char_of_Z. lia.
Qed.

Lemma lsd_digits_zero fuel : lsd_digits fuel 0 = [].
Proof. destruct fuel; reflexivity. Qed.

Lemma lsd_digits_length fuel a : (length (lsd_digits fuel a) <= fuel)%nat.
Proof.
  revert a. induction fuel as [|fuel IH]; intros a; simpl; [lia|].
  destruct (a >? 0); simpl; [|lia]. specialize (IH (a / 10)). lia.
Qed.

Lemma lsd_digits_are_digits fuel a :
  forallb is_digit (lsd_digits fuel a) = true.
Proof.
  revert a. induction fuel as [|fuel IH]; intros a; simpl; [reflexivity|].
  destruct (Z.gtb_spec a 0); simpl; [|reflexivity].
  rewrite IH, andb_true_r. unfold is_digit.
  pose proof (Z.mod_pos_bound a 10 ltac:(lia)).
  rewrite digit_char by lia. apply andb_true_iff. split; apply Z.leb_le; lia.
Qed.

Lemma decimal_value_snoc ds c :
  decimal_value (ds ++ [c]) = 10 * decimal_value ds + digit_value c.
Proof. unfold decimal_value. rewrite foldl_snoc. reflexivity. Qed.

Lemma lsd_digits_value fuel a :
  0 <= a < 10 ^ Z.of_nat fuel ->
  decimal_value (reverse (lsd_digits fuel a)) = a.
Proof.
  revert a. induction fuel as [|fuel IH]; intros a Ha.
  - simpl in *. change (reverse []) with (@nil ascii).
    unfold decimal_value. simpl. lia.
  - cbn [lsd_digits]. destruct (Z.gtb_spec a 0).
    + rewrite reverse_cons, decimal_value_snoc.
      rewrite Nat2Z.inj_succ, Z.pow_succ_r in Ha by lia.
      rewrite IH.
      * unfold digit_value.
        pose proof (Z.mod_pos_bound a 10 ltac:(lia)).
        rewrite digit_char by lia.
        pose proof (Z.div_mod a 10 ltac:(lia)). lia.
      * split; [apply Z.div_pos; lia|].
        apply Z.div_lt_upper_bound; lia.
    + change (reverse []) with (@nil ascii). unfold decimal_value. simpl. lia.
Qed.

Lemma lsd_digits_leading fuel a :
  0 < a < 10 ^ Z.of_nat fuel ->
  exists d rest,
    reverse (lsd_digits fuel a) = d :: rest /\ d <> "0"%char.
Proof.
  revert a. induction fuel as [|fuel IH]; intros a Ha.
  - simpl in Ha. lia.
  - cbn [lsd_digits]. destruct (Z.gtb_spec a 0); [|lia].
    rewrite reverse_cons.
    rewrite Nat2Z.inj_succ, Z.pow_succ_r in Ha by lia.
    destruct (Z.eq_dec (a / 10) 0) as [Hz|Hnz].
    + rewrite Hz, lsd_digits_zero. change (reverse []) with (@nil ascii).
      simpl app. eexists _, []. split; [reflexivity|].
      intros Hc. apply (f_equal Z_of_char) in Hc.
      pose proof (Z.mod_pos_bound a 10 ltac:(lia)).
      rewrite digit_char in Hc by lia. change (Z_of_char "0") with 48 in Hc.
      pose proof (Z.div_mod a 10 ltac:(lia)). lia.
    + destruct (IH (a / 10)) as (d & rest & Hrev & Hd).
      * assert (0 <= a / 10) by (apply Z.div_pos; lia).
        split; [lia|]. apply Z.div_lt_upper_bound; lia.
      * rewrite Hrev.
        exists d, (rest ++ [char_of_Z (Z_of_char "0" + a mod 10)]).
        split; [reflexivity|exact Hd].
Qed.

(** The loop leaves in [numBuf], from index [i] on, the digits of
    [absVal], and stays inside the 20 bytes of the buffer. *)
Lemma digits_loop_take fuel : forall a i buf,
  0 <= a < 2 ^ 32 -> 0 <= i -> i + Z.of_nat fuel <= 19 ->
  length buf = 20%nat ->
  let '(buf', i', _) := digits_loop fuel a i buf in
  take (Z.to_nat i') buf' = take (Z.to_nat i) buf ++ lsd_digits fuel a
  /\ length buf' = 20%nat
  /\ i' = i + Z.of_nat (length (lsd_digits fuel a)).
Proof.
  induction fuel as [|fuel IH]; intros a i buf Ha Hi Hfuel Hbuf.
  - simpl. rewrite app_nil_r. repeat split; [assumption|lia].
  - cbn [digits_loop lsd_digits].
    destruct (Z.gtb_spec a 0) as [Hpos|Hzero]; cbn [andb].
    + destruct (Z.ltb_spec i 19) as [Hlt|Hge]; [|lia].
      assert (Hq : 0 <= a / 10 < 2 ^ 32).
      { split; [apply Z.div_pos; lia|].
        apply Z.div_lt_upper_bound; lia. }
      rewrite to_ulong_id by assumption.
      rewrite to_short_id by (change (2 ^ 15) with 32768; lia).
      set (c := char_of_Z (Z_of_char "0" + a mod 10)).
      specialize (IH (a / 10) (i + 1) (<[Z.to_nat i := c]> buf) Hq
                    ltac:(lia) ltac:(lia)
                    ltac:(rewrite length_insert; assumption)).
      destruct (digits_loop fuel (a / 10) (i + 1) (<[Z.to_nat i:=c]> buf))
        as [[buf' i'] a'].
      destruct IH as (Htake & Hlen & Hi').
      repeat split; [|assumption|simpl length; lia].
      rewrite Htake.
      replace (Z.to_nat (i + 1)) with (S (Z.to_nat i)) by lia.
      rewrite (take_S_r _ _ c)
        by (apply list_lookup_insert_eq; lia).
      rewrite take_insert_ge by lia.
      rewrite <- app_assoc. reflexivity.
    + rewrite app_nil_r. repeat split; [assumption|simpl; lia].
Qed.

(** When the 19 rounds are used up the loop condition is false: the
    bounded recursion is the loop. *)
Lemma digits_loop_exit fuel : forall a i buf,
  i + Z.of_nat fuel = 19 -> 0 <= i < 2 ^ 15 ->
  let '(_, i', a') := digits_loop fuel a i buf in
  (a' >? 0) && (i' <? 19) = false.
Proof.
  induction fuel as [|fuel IH]; intros a i buf Hfuel Hi.
  - simpl. destruct (Z.ltb_spec i 19); [lia|]. apply andb_false_r.
  - cbn [digits_loop].
    destruct ((a >? 0) && (i <? 19)) eqn:Hc; [|exact Hc].
    rewrite to_short_id by (change (2 ^ 15) with 32768 in *; lia).
    apply IH; change (2 ^ 15) with 32768 in *; lia.
Qed.

Lemma format_long_used v :
  long_range v ->
  let '(numBuf, i) := format_long v in
  0 < i <= 20 /\ length numBuf = 20%nat
  /\ reverse (take (Z.to_nat i) numBuf)
     = (if v <? 0 then ["-"%char] else [])
       ++ (if v =? 0 then ["0"%char] else reverse (lsd_digits 19 (Z.abs v))).
Proof.
  intros Hr. unfold format_long.
  assert (Hr' : -2147483648 <= v < 2147483648) by exact Hr.
  pose proof (digits_loop_take 19 (Z.abs v) 0 (replicate 20 NUL)
                ltac:(change (2 ^ 32) with 4294967296; lia)
                ltac:(lia) ltac:(lia) ltac:(reflexivity)) as Hloop.
  pose proof (lsd_digits_length 19 (Z.abs v)) as Hlen.
  destruct (Z.ltb_spec v 0) as [Hneg|Hpos].
  - rewrite magnitude_of_negative by assumption.
    replace (Z.abs v) with (- v) in * by lia.
    destruct (Z.eqb_spec (- v) 0) as [|_]; [lia|].
    destruct (Z.eqb_spec v 0) as [|_]; [lia|].
    destruct (digits_loop 19 (- v) 0 (replicate 20 NUL)) as [[buf i] a].
    destruct Hloop as (Htake & Hbuf & Hi).
    rewrite to_short_id by (change (2 ^ 15) with 32768; lia).
    repeat split; [lia|lia|rewrite length_insert; assumption|].
    replace (Z.to_nat (i + 1)) with (S (Z.to_nat i)) by lia.
    rewrite (take_S_r _ _ "-"%char)
      by (apply list_lookup_insert_eq; lia).
    rewrite take_insert_ge by lia.
    rewrite Htake, reverse_snoc. reflexivity.
  - rewrite to_ulong_id by (change (2 ^ 32) with 4294967296; lia).
    replace (Z.abs v) with v in * by lia.
    destruct (Z.eqb_spec v 0) as [->|Hnz].
    + repeat split; reflexivity || (vm_compute; congruence).
    + destruct (digits_loop 19 v 0 (replicate 20 NUL)) as [[buf i] a].
      destruct Hloop as (Htake & Hbuf & Hi).
      assert (Hne : lsd_digits 19 v <> []).
      { destruct (lsd_digits_leading 19 v) as (d & rest & Hrev & _).
        - change (10 ^ Z.of_nat 19) with 10000000000000000000. lia.
        - intros Hnil. rewrite Hnil in Hrev. discriminate. }
      assert (0 < length (lsd_digits 19 v))%nat
        by (destruct (lsd_digits 19 v); [congruence|simpl; lia]).
      repeat split; [lia|lia|assumption|].
      rewrite Htake. reflexivity.
Qed.

(** What is sent for [value] is its decimal numeral. *)
Lemma long_text_decimal v : long_range v -> decimal_of v (long_text v).
Proof.
  intros Hr. pose proof (format_long_used v Hr) as H.
  unfold long_text. destruct (format_long v) as [numBuf i].
  destruct H as (_ & _ & ->).
  assert (Hr' : -2147483648 <= v < 2147483648) by exact Hr.
  unfold decimal_of. eexists. split; [reflexivity|].
  destruct (Z.eqb_spec v 0) as [->|Hnz].
  - repeat split; try reflexivity; congruence.
  - assert (Habs : 0 < Z.abs v < 10 ^ Z.of_nat 19).
    { change (10 ^ Z.of_nat 19) with 10000000000000000000. lia. }
    destruct (lsd_digits_leading 19 (Z.abs v) Habs) as (d & rest & Hrev & Hd).
    repeat split.
    + rewrite Hrev. discriminate.
    + rewrite forallb_forall. intros c Hc.
      pose proof (lsd_digits_are_digits 19 (Z.abs v)) as Hall.
      rewrite forallb_forall in Hall. apply Hall.
      apply list_elem_of_In. apply list_elem_of_In in Hc.
      apply elem_of_reverse. exact Hc.
    + apply lsd_digits_value. lia.
    + intros _. rewrite Hrev. simpl. congruence.
Qed.

Lemma long_text_examples :
  long_text 0 = chars "0"
  /\ long_text (-42) = chars "-42"
  /\ long_text LONG_MIN = chars "-2147483648"
  /\ long_text 2147483647 = chars "2147483647".
Proof. repeat split; vm_compute; reflexivity. Qed.

(** ** Calls that only log *)

Create HintDb logs.

Section LoggingProps.

Context {W : Type} (tb : Toolbox W).

Lemma only_logs_refl (s : Sys W) : only_logs s s.
Proof.
  repeat split. exists []. rewrite app_nil_r. split; reflexivity.
Qed.

Lemma only_logs_trans (s1 s2 s3 : Sys W) :
  only_logs s1 s2 -> only_logs s2 s3 -> only_logs s1 s3.
Proof.
  intros (Hr1 & He1 & evs1 & Ht1 & Hq1) (Hr2 & He2 & evs2 & Ht2 & Hq2).
  repeat split; [congruence|congruence|].
  exists (evs1 ++ evs2). rewrite Ht2, Ht1, app_assoc. split; [reflexivity|].
  rewrite forallb_app, Hq1, Hq2. reflexivity.
Qed.

Lemma only_logs_called (s : Sys W) w e :
  quiet e = true -> only_logs s (called w e s).
Proof.
  intros Hq. repeat split. exists [e]. split; [reflexivity|].
  simpl. rewrite Hq. reflexivity.
Qed.

Lemma FSWrite_only_logs (s : Sys W) r c b :
  only_logs s (exec (FSWrite tb r c b) s).
Proof.
  unfold exec, FSWrite.
  destruct (tb_FSWrite tb (world s) r c (take (Z.to_nat c) b))
    as [w [err written]].
  apply only_logs_called. reflexivity.
Qed.

Lemma SysBeep_only_logs (s : Sys W) n : only_logs s (exec (SysBeep tb n) s).
Proof. apply only_logs_called. reflexivity. Qed.

Lemma logs_only_ret {A : Type} (a : A) : logs_only (W:=W) (mret a).
Proof. intros s. apply only_logs_refl. Qed.

Lemma logs_only_get_RefNum : logs_only (W:=W) get_RefNum.
Proof. intros s. apply only_logs_refl. Qed.

Lemma logs_only_get_Enabled : logs_only (W:=W) get_Enabled.
Proof. intros s. apply only_logs_refl. Qed.

Lemma logs_only_FSWrite r c b : logs_only (FSWrite tb r c b).
Proof. intros s. apply FSWrite_only_logs. Qed.

Lemma logs_only_SysBeep n : logs_only (SysBeep tb n).
Proof. intros s. apply SysBeep_only_logs. Qed.

Lemma logs_only_bind {A B : Type} (m : M (W:=W) A) (k : A -> M (W:=W) B) :
  logs_only m -> (forall a, logs_only (k a)) -> logs_only (W:=W) (m ≫= k).
Proof.
  intros Hm Hk s. unfold exec, mbind, M_bind.
  specialize (Hm s). unfold exec in Hm. destruct (m s) as [a s'].
  eapply only_logs_trans; [exact Hm|apply Hk].
Qed.

Lemma logs_only_write_reversed n buf : logs_only (write_reversed tb n buf).
Proof.
  induction n as [|j IH]; cbn [write_reversed].
  - apply logs_only_ret.
  - apply logs_only_bind; [apply logs_only_get_RefNum|intros ref].
    apply logs_only_bind; [apply logs_only_FSWrite|intros [err written]].
    destruct (negb (err =? noErr)); [apply logs_only_ret|exact IH].
Qed.

#[local] Hint Resolve logs_only_ret logs_only_get_RefNum
  logs_only_get_Enabled logs_only_FSWrite logs_only_SysBeep
  logs_only_write_reversed logs_only_bind : logs.
#[local] Hint Extern 1 (@logs_only _ _ (if ?c then _ else _)) =>
  destruct c : logs.
#[local] Hint Extern 1 (@logs_only _ _ (match ?c with _ => _ end)) =>
  destruct c : logs.

Lemma logs_only_DebugLog message : logs_only (DebugLog tb message).
Proof. unfold DebugLog. auto 30 with logs. Qed.

Lemma logs_only_DebugLogInt message value :
  logs_only (DebugLogInt tb message value).
Proof. unfold DebugLogInt. auto 30 with logs. Qed.

Lemma logs_only_DebugLogHex message value :
  logs_only (DebugLogHex tb message value).
Proof. unfold DebugLogHex. auto 30 with logs. Qed.

Lemma logs_only_DebugLogFormat format : logs_only (DebugLogFormat tb format).
Proof.
  unfold DebugLogFormat.
  destruct (negb (is_nil format));
    [apply logs_only_DebugLog|apply logs_only_ret].
Qed.

End LoggingProps.

(** ** DebugLogInt and DebugLogHex against a reliable FSWrite *)

Section RecordProps.

Context {W : Type} (tb : Toolbox W).

Lemma written_to_app ref evs1 evs2 :
  written_to ref (evs1 ++ evs2) = written_to ref evs1 ++ written_to ref evs2.
Proof. unfold written_to. rewrite map_app, concat_app. reflexivity. Qed.

Lemma written_to_complete ref bufs :
  written_to ref (map (complete_write ref) bufs) = concat bufs.
Proof.
  unfold written_to. induction bufs as [|buf bufs IH]; [reflexivity|].
  cbn [map concat]. rewrite IH. f_equal.
  unfold complete_write, written_of. rewrite Z.eqb_refl, Nat2Z.id.
  apply take_ge. lia.
Qed.

Lemma concat_singletons (l : list ascii) : concat (map (fun c => [c]) l) = l.
Proof.
  induction l as [|c l IH]; [reflexivity|]. simpl. rewrite IH. reflexivity.
Qed.

Lemma text_of_length p : Z.of_nat (length (text_of p)) = MyStrLen p.
Proof.
  unfold text_of. rewrite length_take.
  pose proof (MyStrLen_range p).
  destruct p as [s|].
  - pose proof (MyStrLen_le_length s). simpl deref. lia.
  - unfold MyStrLen in *. simpl. lia.
Qed.

Lemma FSWrite_reliable (s : Sys W) r (p : cstr) :
  reliable tb ->
  exists w,
    FSWrite tb r (MyStrLen p) (deref p) s
    = ((noErr, MyStrLen p),
       mkSys (gDebugRefNum s) (gDebugEnabled s) w
         (trace s ++ [complete_write r (text_of p)])).
Proof.
  intros Hrel. unfold FSWrite, called, complete_write.
  rewrite text_of_length. fold (text_of p).
  specialize (Hrel (world s) r (MyStrLen p) (text_of p)).
  destruct (tb_FSWrite tb (world s) r (MyStrLen p) (text_of p))
    as [w [err written]].
  simpl in Hrel. injection Hrel as -> ->. exists w. reflexivity.
Qed.

Lemma FSWrite_reliable_1 (s : Sys W) r c rest :
  reliable tb ->
  exists w,
    FSWrite tb r 1 (c :: rest) s
    = ((noErr, 1),
       mkSys (gDebugRefNum s) (gDebugEnabled s) w
         (trace s ++ [complete_write r [c]])).
Proof.
  intros Hrel. unfold FSWrite, called, complete_write.
  change (take (Z.to_nat 1) (c :: rest)) with [c].
  specialize (Hrel (world s) r 1 [c]).
  destruct (tb_FSWrite tb (world s) r 1 [c]) as [w [err written]].
  simpl in Hrel. injection Hrel as -> ->. exists w. reflexivity.
Qed.

(** Against a reliable [FSWrite] the loop sends the used bytes of the
    buffer one by one, the last one first, and runs to its end. *)
Lemma write_reversed_reliable n buf : forall s : Sys W,
  reliable tb -> (n <= length buf)%nat ->
  exists w,
    write_reversed tb n buf s
    = (true,
       mkSys (gDebugRefNum s) (gDebugEnabled s) w
         (trace s ++ map (complete_write (gDebugRefNum s))
                       (map (fun c => [c]) (reverse (take n buf))))).
Proof.
  induction n as [|j IH]; intros s Hrel Hn.
  - exists (world s). destruct s. cbn. rewrite app_nil_r. reflexivity.
  - destruct (lookup_lt_is_Some_2 buf j ltac:(lia)) as [c Hc].
    rewrite (take_S_r _ _ _ Hc), reverse_snoc.
    cbn [write_reversed map].
    unfold mbind, M_bind, get_RefNum.
    rewrite (drop_S _ _ _ Hc).
    destruct (FSWrite_reliable_1 s (gDebugRefNum s) c (drop (S j) buf) Hrel)
      as [w1 ->].
    change (negb (noErr =? noErr)) with false. cbv iota.
    destruct (IH (mkSys (gDebugRefNum s) (gDebugEnabled s) w1
                    (trace s ++ [complete_write (gDebugRefNum s) [c]]))
                Hrel ltac:(lia)) as [w2 ->].
    sys_simpl. exists w2. rewrite <- app_assoc. reflexivity.
Qed.

Lemma text_of_c_text s : c_strlen s <= 32000 -> text_of (Some s) = c_text s.
Proof.
  intros H. unfold text_of, c_text. rewrite MyStrLen_min.
  rewrite Z.min_l by assumption. reflexivity.
Qed.

Lemma DebugLogInt_events (s : Sys W) (message : list ascii) (value : Z) :
  reliable tb -> gDebugEnabled s = true -> gDebugRefNum s <> 0 ->
  long_range value ->
  events_since s (exec (DebugLogInt tb (Some message) value) s)
  = map (complete_write (gDebugRefNum s))
      ((if MyStrLen (Some message) >? 0 then [text_of (Some message)] else [])
       ++ map (fun c => [c]) (long_text value) ++ [[CR]]).
Proof.
  intros Hrel Hen Href Hr.
  destruct s as [ref enabled w tr]. simpl in Hen, Href. subst enabled.
  pose proof (format_long_used value Hr) as Hused.
  unfold long_text, exec, DebugLogInt.
  unfold mbind, M_bind, mret, M_ret, get_Enabled, get_RefNum. sys_simpl.
  rewrite (proj2 (Z.eqb_neq ref 0) Href). cbn [is_nil orb negb].
  destruct (format_long value) as [numBuf i].
  destruct Hused as (Hi & Hbuf & _).
  set (s0 := mkSys ref true w tr).
  assert (Hprefix : exists w1,
    (if MyStrLen (Some message) >? 0
     then '(err, _) ← FSWrite tb ref (MyStrLen (Some message))
                        (deref (Some message));
          mret (err =? noErr)
     else mret true) s0
    = (true, mkSys ref true w1
               (tr ++ map (complete_write ref)
                        (if MyStrLen (Some message) >? 0
                         then [text_of (Some message)] else [])))).
  { destruct (MyStrLen (Some message) >? 0).
    - unfold mbind, M_bind.
      destruct (FSWrite_reliable s0 ref (Some message) Hrel) as [w1 ->].
      exists w1. reflexivity.
    - exists w. cbn. rewrite app_nil_r. reflexivity. }
  destruct Hprefix as [w1 Hprefix].
  unfold mbind, M_bind, mret, M_ret in Hprefix |- *.
  rewrite Hprefix. cbn [negb].
  match goal with
  | |- context [write_reversed tb ?n ?b ?st] =>
      destruct (write_reversed_reliable n b st Hrel ltac:(lia)) as [w2 ->]
  end.
  cbn [negb]. sys_simpl.
  match goal with
  | |- context [FSWrite tb ?r 1 [CR] ?st] =>
      destruct (FSWrite_reliable_1 st r CR [] Hrel) as [w3 ->]
  end.
  since. rewrite !map_app. reflexivity.
Qed.

(** C5.  For an enabled logger holding a reference number, a non-nil
    prefix and a [long] value, and a [FSWrite] that takes every byte, the
    bytes that reach the file are the prefix, the decimal numeral of the
    value (a minus sign exactly when it is negative, then the digits of
    the magnitude without leading zeros) and a carriage return.  The
    prefix is the text the logger measures, which is the whole prefix up to
    32000 bytes.  In particular 0 gives "0", -42 gives "-42", and the least
    [long] gives "-2147483648": its magnitude 2^31 is what the negation,
    read as [unsigned long], amounts to. *)
Theorem DebugLogInt_record (s : Sys W) (prefix : list ascii) (value : Z) :
  reliable tb -> gDebugEnabled s = true -> gDebugRefNum s <> 0 ->
  long_range value ->
  let s' := exec (DebugLogInt tb (Some prefix) value) s in
  written_to (gDebugRefNum s) (events_since s s')
  = text_of (Some prefix) ++ long_text value ++ [CR]
  /\ decimal_of value (long_text value)
  /\ (c_strlen prefix <= 32000 -> text_of (Some prefix) = c_text prefix)
  /\ long_text 0 = chars "0"
  /\ long_text (-42) = chars "-42"
  /\ long_text LONG_MIN = chars "-2147483648"
  /\ to_ulong (to_long (- LONG_MIN)) = 2 ^ 31
  /\ to_ulong (to_long (- LONG_MIN)) = to_ulong (- to_ulong LONG_MIN).
Proof.
  intros Hrel Hen Href Hr s'. subst s'.
  rewrite DebugLogInt_events by assumption.
  rewrite written_to_complete, !concat_app, concat_singletons.
  pose proof long_text_examples as (H0 & H42 & Hmin & _).
  repeat split; try assumption; try reflexivity.
  - f_equal.
    + destruct (Z.gtb_spec (MyStrLen (Some prefix)) 0) as [Hpos|Hzero].
      * simpl. apply app_nil_r.
      * unfold text_of. pose proof (MyStrLen_range (Some prefix)).
        replace (MyStrLen (Some prefix)) with 0 by lia. reflexivity.
  - apply long_text_decimal. assumption.
  - apply text_of_c_text.
Qed.

End RecordProps.

Section HexProps.

Context {W : Type} (tb : Toolbox W).

Lemma hexBuf_0x :
  take (Z.to_nat 2)
    (<[1%nat:="x"%char]> (<[0%nat:="0"%char]> (replicate 16 NUL)))
  = chars "0x".
Proof. reflexivity. Qed.

Lemma hexBuf_digits hi lo :
  take (Z.to_nat 2)
    (<[1%nat:=lo]>
       (<[0%nat:=hi]>
          (<[1%nat:="x"%char]> (<[0%nat:="0"%char]> (replicate 16 NUL)))))
  = [hi; lo].
Proof. reflexivity. Qed.

Lemma hexChars_digit k :
  0 <= k < 16 ->
  is_upper_hex (hexChars !!! Z.to_nat k) = true
  /\ hex_value (hexChars !!! Z.to_nat k) = k.
Proof.
  intros H.
  assert (Hk : k = 0 \/ k = 1 \/ k = 2 \/ k = 3 \/ k = 4 \/ k = 5 \/ k = 6
               \/ k = 7 \/ k = 8 \/ k = 9 \/ k = 10 \/ k = 11 \/ k = 12
               \/ k = 13 \/ k = 14 \/ k = 15) by lia.
  repeat (destruct Hk as [->|Hk]; [split; reflexivity|]).
  subst k. split; reflexivity.
Qed.

(** The two characters sent after "0x" are upper-case hexadecimal digits
    and denote the low byte of the value. *)
Lemma hex_text_low_byte value :
  exists hi lo,
    hex_text value = [hi; lo]
    /\ is_upper_hex hi = true /\ is_upper_hex lo = true
    /\ 16 * hex_value hi + hex_value lo = value mod 256.
Proof.
  unfold hex_text.
  change 15 with (Z.ones 4). rewrite !Z.land_ones by lia.
  rewrite Z.shiftr_div_pow2 by lia. change (2 ^ 4) with 16.
  pose proof (Z.mod_pos_bound (value / 16) 16 ltac:(lia)) as Hhi.
  pose proof (Z.mod_pos_bound value 16 ltac:(lia)) as Hlo.
  destruct (hexChars_digit _ Hhi) as [Hhi1 Hhi2].
  destruct (hexChars_digit _ Hlo) as [Hlo1 Hlo2].
  eexists _, _. split; [reflexivity|]. split; [exact Hhi1|].
  split; [exact Hlo1|]. rewrite Hhi2, Hlo2.
  change 256 with (16 * 16). rewrite Z.rem_mul_r by lia. lia.
Qed.

Lemma DebugLogHex_writes (s : Sys W) (prefix : list ascii) (value : Z) :
  gDebugEnabled s = true -> gDebugRefNum s <> 0 ->
  writes_of (gDebugRefNum s)
    ((if MyStrLen (Some prefix) >? 0 then [text_of (Some prefix)] else [])
     ++ [chars "0x"; hex_text value; [CR]])
    (events_since s (exec (DebugLogHex tb (Some prefix) value) s)).
Proof.
  intros Hen Href.
  destruct s as [ref enabled w tr]. simpl in Hen, Href. subst enabled.
  unfold DebugLogHex. unfold_sys. sys_simpl.
  rewrite (proj2 (Z.eqb_neq ref 0) Href). cbn [is_nil orb negb deref default].
  destruct (MyStrLen (Some prefix) >? 0); sys_simpl;
    repeat (step_toolbox; sys_simpl); since;
    rewrite ?hexBuf_0x, ?hexBuf_digits; fold (hex_text value);
    unfold writes_of; cbn [app];
    repeat (constructor; [do 2 eexists|]); try constructor;
    try reflexivity.
  fold (text_of (Some prefix)). rewrite text_of_length. reflexivity.
Qed.

Lemma DebugLogHex_reliable (s : Sys W) (prefix : list ascii) (value : Z) :
  reliable tb -> gDebugEnabled s = true -> gDebugRefNum s <> 0 ->
  written_to (gDebugRefNum s)
    (events_since s (exec (DebugLogHex tb (Some prefix) value) s))
  = text_of (Some prefix) ++ chars "0x" ++ hex_text value ++ [CR].
Proof.
  intros Hrel Hen Href.
  destruct s as [ref enabled w tr]. simpl in Hen, Href. subst enabled.
  unfold DebugLogHex. unfold_sys. sys_simpl.
  rewrite (proj2 (Z.eqb_neq ref 0) Href). cbn [is_nil orb negb deref default].
  pose proof (MyStrLen_range (Some prefix)) as Hrange.
  pose proof (MyStrLen_le_length prefix) as Hle.
  destruct (Z.gtb_spec (MyStrLen (Some prefix)) 0) as [Hpos|Hzero]; sys_simpl;
    repeat (step_toolbox; sys_simpl);
    repeat match goal with
           | H : tb_FSWrite tb ?w0 ?r ?c ?b = _ |- _ =>
               let R := fresh "R" in
               pose proof (Hrel w0 r c b) as R; rewrite H in R;
               cbn [snd] in R; injection R as -> ->; clear H
           end;
    since; rewrite ?hexBuf_0x, ?hexBuf_digits; fold (hex_text value);
    unfold written_to; cbn [map concat written_of]; rewrite ?Z.eqb_refl;
    rewrite ?app_nil_r.
  - fold (text_of (Some prefix)).
    rewrite (take_ge (text_of (Some prefix)))
      by (pose proof (text_of_length (Some prefix)); lia).
    reflexivity.
  - unfold text_of. replace (MyStrLen (Some prefix)) with 0 by lia.
    reflexivity.
Qed.

(** C6.  For an enabled logger holding a reference number and a non-nil
    prefix, [DebugLogHex] asks for these writes in this order and for no
    other call: the prefix if it is not empty, the two characters "0x",
    two upper-case hexadecimal digits denoting [value mod 256], and a
    carriage return.  Whatever a write answers, the next ones are still
    made; when every write takes its bytes the file receives their
    concatenation. *)
Theorem DebugLogHex_record (s : Sys W) (prefix : list ascii) (value : Z) :
  gDebugEnabled s = true -> gDebugRefNum s <> 0 ->
  let ref := gDebugRefNum s in
  let evs := events_since s (exec (DebugLogHex tb (Some prefix) value) s) in
  writes_of ref
    ((if MyStrLen (Some prefix) >? 0 then [text_of (Some prefix)] else [])
     ++ [chars "0x"; hex_text value; [CR]]) evs
  /\ (reliable tb ->
      written_to ref evs
      = text_of (Some prefix) ++ chars "0x" ++ hex_text value ++ [CR])
  /\ (exists hi lo,
        hex_text value = [hi; lo]
        /\ is_upper_hex hi = true /\ is_upper_hex lo = true
        /\ 16 * hex_value hi + hex_value lo = value mod 256)
  /\ (c_strlen prefix <= 32000 -> text_of (Some prefix) = c_text prefix)
  /\ hex_text 511 = chars "FF"
  /\ hex_text 5 = chars "05".
Proof.
  intros Hen Href ref evs. subst ref evs.
  split; [apply DebugLogHex_writes; assumption|].
  split; [intros Hrel; apply DebugLogHex_reliable; assumption|].
  split; [apply hex_text_low_byte|].
  split; [apply text_of_c_text|].
  split; reflexivity.
Qed.

End HexProps.

(** ** The state invariant *)

Section InvariantProps.

Context {W : Type} (tb : Toolbox W).

Lemma open_handles_app evs1 evs2 :
  open_handles (evs1 ++ evs2) = foldl track_handles (open_handles evs1) evs2.
Proof. unfold open_handles. apply foldl_app. Qed.

Lemma never_two_app evs1 : forall open evs2,
  never_two open (evs1 ++ evs2)
  = never_two open evs1 && never_two (foldl track_handles open evs1) evs2.
Proof.
  induction evs1 as [|e evs1 IH]; intros open evs2; [reflexivity|].
  cbn [app never_two foldl]. rewrite IH, andb_assoc. reflexivity.
Qed.

Lemma quiet_track open e : quiet e = true -> track_handles open e = open.
Proof. destruct e; simpl; intros H; congruence. Qed.

Lemma quiet_handles evs : forall open,
  forallb quiet evs = true -> foldl track_handles open evs = open.
Proof.
  induction evs as [|e evs IH]; intros open H; [reflexivity|].
  simpl in H. apply andb_true_iff in H as [He Hevs].
  cbn [foldl]. rewrite quiet_track by assumption. apply IH. assumption.
Qed.

Lemma quiet_never_two evs : forall open,
  (length open <= 1)%nat -> forallb quiet evs = true ->
  never_two open evs = true.
Proof.
  induction evs as [|e evs IH]; intros open Hlen H; [reflexivity|].
  simpl in H. apply andb_true_iff in H as [He Hevs].
  cbn [never_two]. rewrite quiet_track by assumption.
  rewrite IH by assumption. rewrite andb_true_r. apply Nat.leb_le. exact Hlen.
Qed.

Lemma handle_list_length ref : (length (handle_list ref) <= 1)%nat.
Proof. unfold handle_list. destruct (ref =? 0); simpl; lia. Qed.

Lemma Inv_initial (w : W) : Inv (initial w).
Proof. repeat split. simpl. discriminate. Qed.

Lemma Inv_only_logs (s s' : Sys W) : Inv s -> only_logs s s' -> Inv s'.
Proof.
  intros (Hen & Hopen & Hnever) (Hr & He & evs & Ht & Hq).
  unfold Inv. rewrite Hr, He, Ht. split; [exact Hen|]. split.
  - rewrite open_handles_app, quiet_handles by assumption. exact Hopen.
  - rewrite never_two_app, Hnever. fold (open_handles (trace s)).
    rewrite Hopen. apply quiet_never_two; [apply handle_list_length|exact Hq].
Qed.

Lemma Inv_DebugClose (s : Sys W) : Inv s -> Inv (exec (DebugClose tb) s).
Proof.
  intros (Hen & Hopen & Hnever).
  destruct s as [ref enabled w tr]. simpl in *.
  unfold DebugClose. unfold_sys. sys_simpl.
  destruct (ref =? 0) eqn:E; sys_simpl.
  - unfold Inv. sys_simpl. unfold handle_list in *. rewrite E in Hopen.
    rewrite E. repeat split; [discriminate|exact Hopen|assumption].
  - repeat (step_toolbox; sys_simpl).
    unfold Inv. sys_simpl. unfold handle_list in Hopen. rewrite E in Hopen.
    rewrite <- app_assoc, open_handles_app, never_two_app, Hopen, Hnever.
    fold (open_handles tr). rewrite Hopen.
    cbn [app foldl track_handles remove_first never_two length].
    rewrite Z.eqb_refl. repeat split. discriminate.
Qed.

Lemma Inv_DebugInit (s : Sys W) filename :
  opens_nonzero tb -> Inv s -> Inv (exec (DebugInit tb filename) s).
Proof.
  intros Hnz (Hen & Hopen & Hnever).
  destruct s as [ref enabled w tr]. simpl in *. clear Hen.
  unfold handle_list in Hopen.
  destruct filename as [name|]; init_run;
    repeat match goal with
           | H : tb_FSOpen tb ?w0 ?n ?v = (_, (?e, ?z)) |- _ =>
               let Hz := fresh "Hz" in
               pose proof (Hnz w0 n v) as Hz; rewrite H in Hz;
               cbn [fst snd] in Hz; clear H
           end;
    unfold Inv; sys_simpl; rewrite <- ?app_assoc;
    rewrite ?open_handles_app, ?never_two_app, ?Hnever;
    fold (open_handles tr);
    rewrite ?Hopen; unfold handle_list in *;
    repeat (progress
      (cbn [app foldl track_handles remove_first never_two length Nat.leb
            andb];
       unfold noErr in *; use_conds; rewrite ?Z.eqb_refl));
    repeat match goal with
           | H : (?e =? 0) = true |- _ => apply Z.eqb_eq in H
           end;
    repeat split; try discriminate; try reflexivity; try assumption.
  all: try (intros _; apply Hz; assumption).
  all: try (destruct (Z.eqb_spec z 0) as [Hz0|Hz0];
            [exfalso; apply Hz; assumption|reflexivity]).
Qed.

Lemma Inv_run_op (s : Sys W) (o : Op) :
  opens_nonzero tb -> Inv s -> Inv (run_op tb s o).
Proof.
  intros Hnz HI. destruct o; cbn [run_op].
  - apply Inv_DebugInit; assumption.
  - eapply Inv_only_logs; [exact HI|apply logs_only_DebugLog].
  - eapply Inv_only_logs; [exact HI|apply logs_only_DebugLogInt].
  - eapply Inv_only_logs; [exact HI|apply logs_only_DebugLogHex].
  - eapply Inv_only_logs; [exact HI|apply logs_only_DebugLogFormat].
  - exact HI.
  - apply Inv_DebugClose; assumption.
  - exact HI.
Qed.

Lemma Inv_run (ops : list Op) : forall s : Sys W,
  opens_nonzero tb -> Inv s -> Inv (run tb ops s).
Proof.
  induction ops as [|o ops IH]; intros s Hnz HI; [exact HI|].
  cbn [run foldl]. apply IH; [assumption|]. apply Inv_run_op; assumption.
Qed.

Lemma DebugInit_closes_first (s : Sys W) filename :
  gDebugRefNum s <> 0 ->
  exists err rest,
    events_since s (exec (DebugInit tb filename) s)
    = EvFSClose (gDebugRefNum s) err :: rest.
Proof.
  intros Href. destruct s as [ref enabled w tr]. simpl in Href.
  destruct filename as [name|]; init_run; since;
    try (apply Z.eqb_eq in E; contradiction);
    do 2 eexists; reflexivity.
Qed.

(** C9.  Provided the File Manager never opens a file under reference
    number 0: the initial state satisfies the invariant, every operation
    preserves it, and so it holds after any sequence of operations.  The
    invariant says that an enabled logger holds a reference number, that
    the files opened and not yet closed are exactly the one it holds, and
    that at no point of the trace two files were open at once.  The last
    holds because a [DebugInit] that finds a reference number at hand calls
    [FSClose] on it before anything else. *)
Theorem Inv_always (w : W) (ops : list Op) :
  opens_nonzero tb ->
  Inv (initial w)
  /\ (forall s o, Inv s -> Inv (run_op tb s o))
  /\ Inv (run tb ops (initial w))
  /\ (let s := run tb ops (initial w) in
      (gDebugEnabled s = true -> gDebugRefNum s <> 0)
      /\ (length (open_handles (trace s)) <= 1)%nat
      /\ never_two [] (trace s) = true)
  /\ (forall s filename,
        gDebugRefNum s <> 0 ->
        exists err rest,
          events_since s (exec (DebugInit tb filename) s)
          = EvFSClose (gDebugRefNum s) err :: rest).
Proof.
  intros Hnz.
  assert (HI : Inv (run tb ops (initial w)))
    by (apply Inv_run; [assumption|apply Inv_initial]).
  split; [apply Inv_initial|].
  split; [intros s o; apply Inv_run_op; assumption|].
  split; [exact HI|].
  split; [|apply DebugInit_closes_first].
  destruct HI as (Hen & Hopen & Hnever).
  cbv zeta. split; [exact Hen|]. split; [|exact Hnever].
  rewrite Hopen. apply handle_list_length.
Qed.

End InvariantProps.

(** ** The 32000-byte cap *)

Section CapProps.

Context {W : Type} (tb : Toolbox W).

Lemma DebugLog_first_write (s : Sys W) (msg : list ascii) :
  first_failed s (Some msg) = None ->
  exists err written rest,
    events_since s (exec (DebugLog tb (Some msg)) s)
    = EvFSWrite (gDebugRefNum s) (MyStrLen (Some msg)) (text_of (Some msg))
        err written :: rest.
Proof.
  unfold first_failed, DebugLog. intros H.
  destruct s as [ref enabled w tr]. cbn [gDebugEnabled gDebugRefNum] in *.
  destruct enabled; [|discriminate]. cbn [negb] in H.
  destruct (ref =? 0) eqn:Href; [discriminate|].
  assert (Hn : (MyStrLen (Some msg) =? 0) = false).
  { rewrite MyStrLen_min.
    destruct (Z.eqb_spec (c_strlen msg) 0) as [E|E]; [discriminate|].
    pose proof (c_strlen_nonneg msg). apply Z.eqb_neq. lia. }
  unfold_sys. sys_simpl. rewrite Href, Hn. fold (text_of (Some msg)).
  step_toolbox. sys_simpl.
  destruct (negb (o =? noErr) || negb (z =? MyStrLen (Some msg)));
    [|step_toolbox; sys_simpl; destruct (negb (_ =? noErr))];
    since; do 3 eexists; reflexivity.
Qed.

Lemma c_text_length s : Z.of_nat (length (c_text s)) = c_strlen s.
Proof.
  unfold c_text. rewrite length_take.
  pose proof (c_strlen_le_length s). pose proof (c_strlen_nonneg s). lia.
Qed.

Lemma text_of_capped (msg : list ascii) :
  32000 < c_strlen msg ->
  text_of (Some msg) = take (Z.to_nat 32000) msg
  /\ Z.of_nat (length (text_of (Some msg))) = 32000
  /\ Z.of_nat (length (text_of (Some msg))) < Z.of_nat (length (c_text msg)).
Proof.
  intros Hlong. rewrite c_text_length, text_of_length.
  unfold text_of. rewrite MyStrLen_min.
  rewrite Z.min_r by lia. cbn [deref default].
  repeat split; lia.
Qed.

Lemma DebugLog_reliable (s : Sys W) (msg : list ascii) :
  reliable tb -> first_failed s (Some msg) = None ->
  events_since s (exec (DebugLog tb (Some msg)) s)
  = map (complete_write (gDebugRefNum s)) [text_of (Some msg); [CR]].
Proof.
  unfold first_failed, DebugLog. intros Hrel H.
  destruct s as [ref enabled w tr]. cbn [gDebugEnabled gDebugRefNum] in *.
  destruct enabled; [|discriminate]. cbn [negb] in H.
  destruct (ref =? 0) eqn:Href; [discriminate|].
  assert (Hn : (MyStrLen (Some msg) =? 0) = false).
  { rewrite MyStrLen_min.
    destruct (Z.eqb_spec (c_strlen msg) 0) as [E|E]; [discriminate|].
    pose proof (c_strlen_nonneg msg). apply Z.eqb_neq. lia. }
  unfold exec, mbind, M_bind, mret, M_ret, get_Enabled, get_RefNum.
  sys_simpl. rewrite Href, Hn.
  change msg with (deref (Some msg)) at 2.
  match goal with
  | |- context [FSWrite tb ?r _ _ ?st] =>
      destruct (FSWrite_reliable tb st r (Some msg) Hrel) as [w1 ->]
  end.
  unfold noErr. rewrite !Z.eqb_refl. cbn [negb orb]. sys_simpl.
  match goal with
  | |- context [FSWrite tb ?r 1 [CR] ?st] =>
      destruct (FSWrite_reliable_1 tb st r CR [] Hrel) as [w2 ->]
  end.
  unfold noErr. rewrite Z.eqb_refl. cbn [negb]. since. reflexivity.
Qed.

(** C10.  [MyStrLen] is the number of bytes before the first NUL, or
    32000 if that is less; the file name, the message of [DebugLog] and
    the prefixes of [DebugLogInt] and [DebugLogHex] are all taken at this
    length (the name at 255 at most).  So of a message whose NUL lies
    beyond byte 32000 [DebugLog] asks to write the first 32000 bytes only,
    and with a reliable [FSWrite] the file receives these and the carriage
    return: less than the message. *)
Theorem MyStrLen_caps_text_at_32000 :
  (forall str, MyStrLen (Some str) = Z.min (c_strlen str) 32000)
  /\ MyStrLen None = 0
  /\ (forall name,
        pstr_text (to_pascal name)
        = take (Z.to_nat (Z.min (MyStrLen (Some name)) 255)) name)
  /\ (forall (s : Sys W) msg,
        first_failed s (Some msg) = None ->
        exists err written rest,
          events_since s (exec (DebugLog tb (Some msg)) s)
          = EvFSWrite (gDebugRefNum s) (MyStrLen (Some msg))
              (text_of (Some msg)) err written :: rest)
  /\ (forall (s : Sys W) prefix value,
        reliable tb -> gDebugEnabled s = true -> gDebugRefNum s <> 0 ->
        long_range value ->
        events_since s (exec (DebugLogInt tb (Some prefix) value) s)
        = map (complete_write (gDebugRefNum s))
            ((if MyStrLen (Some prefix) >? 0
              then [text_of (Some prefix)] else [])
             ++ map (fun c => [c]) (long_text value) ++ [[CR]]))
  /\ (forall (s : Sys W) prefix value,
        gDebugEnabled s = true -> gDebugRefNum s <> 0 ->
        writes_of (gDebugRefNum s)
          ((if MyStrLen (Some prefix) >? 0
            then [text_of (Some prefix)] else [])
           ++ [chars "0x"; hex_text value; [CR]])
          (events_since s (exec (DebugLogHex tb (Some prefix) value) s)))
  /\ (forall (s : Sys W) msg,
        first_failed s (Some msg) = None -> 32000 < c_strlen msg ->
        text_of (Some msg) = take (Z.to_nat 32000) msg
        /\ Z.of_nat (length (text_of (Some msg)))
           < Z.of_nat (length (c_text msg))
        /\ (reliable tb ->
            written_to (gDebugRefNum s)
              (events_since s (exec (DebugLog tb (Some msg)) s))
            = take (Z.to_nat 32000) msg ++ [CR])).
Proof.
  split; [apply MyStrLen_min|].
  split; [reflexivity|].
  split.
  { intros name. rewrite to_pascal_text, MyStrLen_min. f_equal. lia. }
  split; [apply DebugLog_first_write|].
  split; [intros; apply DebugLogInt_events; assumption|].
  split; [intros; apply DebugLogHex_writes; assumption|].
  intros s msg Hpre Hlong.
  destruct (text_of_capped msg Hlong) as (Htext & _ & Hless).
  split; [exact Htext|]. split; [exact Hless|].
  intros Hrel. rewrite DebugLog_reliable by assumption.
  rewrite written_to_complete, Htext. reflexivity.
Qed.

End CapProps.

(** * The properties on concrete runs *)

Lemma reliable_perfect : reliable perfect.
Proof. intros w refNum count buf. reflexivity. Qed.

Lemma opens_nonzero_perfect : opens_nonzero perfect.
Proof. intros w name vRefNum _. simpl. discriminate. Qed.

(** [DebugInit] on a Toolbox where every call succeeds, and on a disk
    that takes the file but not the header. *)
Lemma DebugInit_success_iff_witness :
  let s := initial tt in
  let s' := exec (DebugInit perfect (lit "debug.txt")) s in
  let tb := scripted [(noErr, 0); (noErr, 0); (noErr, 0); (dskFulErr, 22)] in
  let t := initial 0%nat in
  let t' := exec (DebugInit tb (lit "debug.txt")) t in
  (result (DebugInit perfect (lit "debug.txt")) s = true
   /\ gDebugEnabled s' = true
   /\ gDebugRefNum s' = 42
   /\ events_since s s'
      = [EvFSDelete (chars "debug.txt") 0 noErr;
         EvCreate (chars "debug.txt") 0 "ttxt" "TEXT" noErr;
         EvFSOpen (chars "debug.txt") 0 noErr 42;
         EvFSWrite 42 22 headerMsg noErr 22;
         EvSysBeep 10])
  /\ (result (DebugInit tb (lit "debug.txt")) t = false
      /\ gDebugEnabled t' = false
      /\ gDebugRefNum t' = 0
      /\ open_handles (events_since t t') = []
      /\ events_since t t'
         = [EvFSDelete (chars "debug.txt") 0 noErr;
            EvCreate (chars "debug.txt") 0 "ttxt" "TEXT" noErr;
            EvFSOpen (chars "debug.txt") 0 noErr 42;
            EvFSWrite 42 22 headerMsg dskFulErr 0;
            EvSysBeep 4;
            EvFSClose 42 noErr]).
Proof.
  cbv zeta. split.
  - pose proof (DebugInit_success_iff perfect (initial tt) (lit "debug.txt"))
      as (Hr & _ & Hok & _).
    destruct (Hok eq_refl) as (Hen & Href & _ & Hevs & _).
    split; [exact Hr|]. split; [exact Hen|]. split; [exact Href|exact Hevs].
  - pose proof (DebugInit_success_iff
                  (scripted [(noErr, 0); (noErr, 0); (noErr, 0);
                             (dskFulErr, 22)])
                  (initial 0%nat) (lit "debug.txt")) as (Hr & _ & _ & Hfail & _).
    destruct (Hfail eq_refl) as (Hen & Href & Hopen & Hevs).
    split; [exact Hr|]. split; [exact Hen|]. split; [exact Href|].
    split; [exact Hopen|exact Hevs].
Defined.



(** [DebugLog] on a logger that was never initialised. *)
Lemma DebugLog_preconditions_witness :
  let s := initial tt in
  let s' := exec (DebugLog perfect (lit "hello")) s in
  first_failed s (lit "hello") = Some LoggerEnabled
  /\ events_since s s' = [EvSysBeep 5]
  /\ written_to 0 (events_since s s') = [].
Proof.
  cbv zeta.
  pose proof (DebugLog_preconditions perfect (initial tt) (lit "hello"))
    as (Hfirst & _ & Hzero).
  split; [reflexivity|]. split.
  - apply (Hfirst LoggerEnabled). reflexivity.
  - apply Hzero. left. reflexivity.
Defined.

(** [DebugLog] when the disk fails on the message. *)
Lemma DebugLog_write_failures_witness :
  let tb := scripted [(ioErr, 0)] in
  let s := mkSys 42 true 0%nat [] in
  let s' := exec (DebugLog tb (lit "hi")) s in
  first_failed s (lit "hi") = None
  /\ events_since s s' = [EvFSWrite 42 2 (chars "hi") ioErr 2; EvSysBeep 20]
  /\ gDebugEnabled s' = true
  /\ gDebugRefNum s' = 42.
Proof.
  cbv zeta. split; [reflexivity|].
  pose proof (DebugLog_write_failures (scripted [(ioErr, 0)])
                (mkSys 42 true 0%nat []) (chars "hi") eq_refl)
    as ((Hen & Href) & H20 & _).
  split; [|split; [exact Hen|exact Href]].
  apply H20. left. discriminate.
Defined.

(** [DebugLogInt] on the least [long]. *)
Lemma DebugLogInt_record_witness :
  let s := mkSys 42 true tt [] in
  reliable perfect /\ gDebugEnabled s = true /\ gDebugRefNum s <> 0
  /\ long_range LONG_MIN
  /\ written_to 42
       (events_since s (exec (DebugLogInt perfect (lit "v=") LONG_MIN) s))
     = chars "v=-2147483648" ++ [CR].
Proof.
  cbv zeta.
  assert (Href : gDebugRefNum (mkSys 42 true tt []) <> 0) by discriminate.
  assert (Hr : long_range LONG_MIN) by (split; vm_compute; congruence).
  split; [exact reliable_perfect|]. split; [reflexivity|].
  split; [exact Href|]. split; [exact Hr|].
  exact (proj1 (DebugLogInt_record perfect (mkSys 42 true tt []) (chars "v=")
                  LONG_MIN reliable_perfect eq_refl Href Hr)).
Defined.

(** [DebugLogHex] on a value that does not fit a byte. *)
Lemma DebugLogHex_record_witness :
  let s := mkSys 42 true tt [] in
  let evs := events_since s (exec (DebugLogHex perfect (lit "h") 511) s) in
  gDebugEnabled s = true /\ gDebugRefNum s <> 0
  /\ writes_of 42 [chars "h"; chars "0x"; chars "FF"; [CR]] evs
  /\ written_to 42 evs = chars "h0xFF" ++ [CR].
Proof.
  cbv zeta.
  assert (Href : gDebugRefNum (mkSys 42 true tt []) <> 0) by discriminate.
  pose proof (DebugLogHex_record perfect (mkSys 42 true tt []) (chars "h") 511
                eq_refl Href) as (Hw & Hrel & _).
  split; [reflexivity|]. split; [exact Href|].
  split; [exact Hw|]. exact (Hrel reliable_perfect).
Defined.

(** [DebugInit] with a name of 300 bytes. *)
Lemma DebugInit_truncates_name_witness :
  let name := replicate 300 "a"%char in
  let s := initial tt in
  255 < c_strlen name
  /\ name_uses (events_since s (exec (DebugInit perfect (Some name)) s))
     = [(UseDelete, replicate 255 "a"%char);
        (UseCreate, replicate 255 "a"%char);
        (UseOpen, replicate 255 "a"%char)].
Proof.
  cbv zeta.
  assert (Hlong : 255 < c_strlen (replicate 300 "a"%char)) by reflexivity.
  split; [exact Hlong|].
  exact (proj2 (DebugInit_truncates_name perfect (initial tt)
                  (replicate 300 "a"%char) Hlong)).
Defined.

(** [DebugClose] when the disk fails on the footer. *)
Lemma DebugClose_footer_then_release_witness :
  let tb := scripted [(ioErr, 0)] in
  let s := mkSys 42 true 0%nat [] in
  let s' := exec (DebugClose tb) s in
  events_since s s' = [EvFSWrite 42 17 endMsg ioErr 17; EvFSClose 42 noErr]
  /\ gDebugEnabled s' = false
  /\ gDebugRefNum s' = 0
  /\ exec (DebugClose tb) s' = s'.
Proof.
  cbv zeta.
  pose proof (DebugClose_footer_then_release (scripted [(ioErr, 0)])
                (mkSys 42 true 0%nat [])) as (Hen & Href & Hopen & _ & Hidem).
  split; [|split; [exact Hen|split; [exact Href|exact Hidem]]].
  apply Hopen. discriminate.
Defined.

(** Two sessions, one after the other without a close in between. *)
Lemma Inv_always_witness :
  let ops := [OpInit (lit "a.log"); OpLog (lit "one"); OpInit (lit "b.log");
              OpLogInt (lit "n=") 7; OpClose] in
  opens_nonzero perfect /\ Inv (run perfect ops (initial tt)).
Proof.
  cbv zeta. split; [exact opens_nonzero_perfect|].
  exact (proj1 (proj2 (proj2
           (Inv_always perfect tt
              [OpInit (lit "a.log"); OpLog (lit "one"); OpInit (lit "b.log");
               OpLogInt (lit "n=") 7; OpClose]
              opens_nonzero_perfect)))).
Defined.

(** [DebugLog] on a message of 32001 bytes. *)
Lemma MyStrLen_caps_text_at_32000_witness :
  let msg := replicate (Z.to_nat 32001) "a"%char in
  let s := mkSys 42 true tt [] in
  first_failed s (Some msg) = None
  /\ 32000 < c_strlen msg
  /\ written_to 42 (events_since s (exec (DebugLog perfect (Some msg)) s))
     = take (Z.to_nat 32000) msg ++ [CR].
Proof.
  cbv zeta.
  assert (Hpre : first_failed (mkSys 42 true tt [])
                   (Some (replicate (Z.to_nat 32001) "a"%char)) = None)
    by (vm_compute; reflexivity).
  assert (Hlong : 32000 < c_strlen (replicate (Z.to_nat 32001) "a"%char))
    by (vm_compute; reflexivity).
  split; [exact Hpre|]. split; [exact Hlong|].
  pose proof (MyStrLen_caps_text_at_32000 perfect)
    as (_ & _ & _ & _ & _ & _ & Hcap).
  exact (proj2 (proj2 (Hcap (mkSys 42 true tt []) _ Hpre Hlong))
           reliable_perfect).
Defined.

(** * Further properties of the code *)

(** ** What MyStrLen measures *)

Lemma c_text_cons c rest :
  c_text (c :: rest) = if is_nul c then [] else c :: c_text rest.
Proof.
  unfold c_text. cbn [c_strlen]. destruct (is_nul c); [reflexivity|].
  pose proof (c_strlen_nonneg rest).
  replace (Z.to_nat (1 + c_strlen rest)) with (S (Z.to_nat (c_strlen rest)))
    by lia.
  reflexivity.
Qed.

Lemma c_text_no_NUL s : Forall (fun c => c <> NUL) (c_text s).
Proof.
  induction s as [|c s IH]; [constructor|].
  rewrite c_text_cons. destruct (is_nul c) eqn:E; constructor; [|exact IH].
  apply Ascii.eqb_neq. exact E.
Qed.

Lemma c_strlen_stops s :
  s !! Z.to_nat (c_strlen s) = None \/ s !! Z.to_nat (c_strlen s) = Some NUL.
Proof.
  induction s as [|c s IH]; [left; reflexivity|].
  cbn [c_strlen]. destruct (is_nul c) eqn:E.
  - right. apply Ascii.eqb_eq in E. subst c. reflexivity.
  - pose proof (c_strlen_nonneg s).
    replace (Z.to_nat (1 + c_strlen s)) with (S (Z.to_nat (c_strlen s)))
      by lia.
    exact IH.
Qed.

Lemma text_of_prefix_of_c_text s :
  text_of (Some s) = take (Z.to_nat (MyStrLen (Some s))) (c_text s).
Proof.
  unfold text_of, c_text. cbn [deref default]. rewrite take_take.
  f_equal. rewrite MyStrLen_min. lia.
Qed.

(** X1.  [MyStrLen] answers between 0 and 32000, so its [short] counter
    never wraps, and never more than there are bytes; the bytes it counts
    hold no NUL; and when it answers less than 32000 it stopped at a NUL
    (or at the end of what the pointer points to): the count is the
    longest NUL-free prefix, capped at 32000. *)
Theorem MyStrLen_measures_text (p : cstr) :
  0 <= MyStrLen p <= 32000
  /\ MyStrLen p <= Z.of_nat (length (deref p))
  /\ Z.of_nat (length (text_of p)) = MyStrLen p
  /\ Forall (fun c => c <> NUL) (text_of p)
  /\ (MyStrLen p < 32000 ->
      deref p !! Z.to_nat (MyStrLen p) = None
      \/ deref p !! Z.to_nat (MyStrLen p) = Some NUL).
Proof.
  split; [apply MyStrLen_range|].
  destruct p as [s|].
  - split; [apply MyStrLen_le_length|].
    split; [apply text_of_length|]. split.
    + rewrite text_of_prefix_of_c_text. apply Forall_take, c_text_no_NUL.
    + intros Hlt. cbn [deref default]. rewrite MyStrLen_min in *.
      rewrite Z.min_l by lia. apply c_strlen_stops.
  - split; [reflexivity|]. split; [reflexivity|]. split; [constructor|].
    intros _. left. reflexivity.
Qed.

(** ** DebugInit: names, calls and signals *)

Section InitMoreProps.

Context {W : Type} (tb : Toolbox W).

(** X2.  A name of at most 255 bytes reaches the File Manager as it is:
    [FSDelete] and [Create], and [FSOpen] when [Create] succeeded, are
    called with the bytes of the name before its NUL, and with no other
    name. *)
Theorem DebugInit_keeps_short_name (s : Sys W) (name : list ascii) :
  c_strlen name <= 255 ->
  let evs := events_since s (exec (DebugInit tb (Some name)) s) in
  name_uses evs
  = [(UseDelete, c_text name); (UseCreate, c_text name)]
    ++ (if create_succeeded evs then [(UseOpen, c_text name)] else []).
Proof.
  intros Hshort evs. subst evs.
  rewrite DebugInit_name_uses, to_pascal_text.
  rewrite Z.min_l by assumption. reflexivity.
Qed.

(** X3.  Every call of [DebugInit] ends with exactly one [SysBeep], and
    its argument tells the outcome: 1 for a nil name, 2 when [Create]
    failed, 3 when [FSOpen] failed, 4 when the header write failed, 10 for
    success, which is the only case that answers [true].  The File Manager
    calls are, in this order: [FSClose] of an old file if there was one,
    then [FSDelete], [Create], [FSOpen], [FSWrite], each only if the ones
    before succeeded ([FSDelete] apart, whose answer is ignored), and a
    last [FSClose] when the header write failed. *)
Theorem DebugInit_call_sequence (s : Sys W) (filename : cstr) :
  let evs := events_since s (exec (DebugInit tb filename) s) in
  let signal := init_signal filename evs in
  beeps evs = [signal]
  /\ result (DebugInit tb filename) s = (signal =? 10)
  /\ calls evs
     = (if gDebugRefNum s =? 0 then [] else [KClose]) ++ init_calls signal.
Proof.
  destruct s as [ref enabled w tr]. cbv zeta. sys_simpl.
  destruct filename as [name|]; init_run; since;
    unfold init_signal, beeps, calls; init_finish;
    repeat split; reflexivity.
Qed.

End InitMoreProps.

(** ** Calls that do nothing *)

Section SilentProps.

Context {W : Type} (tb : Toolbox W).

(** X4.  Without an enabled logger, without a reference number or with a
    nil message, [DebugLogInt] and [DebugLogHex] return at once: no call
    is made, not even a [SysBeep], and nothing changes.  [DebugLogFormat]
    with a nil format does the same in every state. *)
Theorem DebugLogInt_Hex_silent (s : Sys W) (message : cstr) (value : Z) :
  gDebugEnabled s = false \/ gDebugRefNum s = 0 \/ message = None ->
  exec (DebugLogInt tb message value) s = s
  /\ exec (DebugLogHex tb message value) s = s
  /\ exec (DebugLogFormat tb None) s = s.
Proof.
  intros H. destruct s as [ref enabled w tr]. cbn [gDebugEnabled gDebugRefNum] in H.
  assert (Hc : negb enabled || (ref =? 0) || is_nil message = true).
  { destruct H as [-> | [-> | ->]]; [reflexivity| |].
    - destruct enabled; reflexivity.
    - destruct enabled, (ref =? 0); reflexivity. }
  unfold DebugLogInt, DebugLogHex, DebugLogFormat. unfold_sys. sys_simpl.
  rewrite Hc. repeat split.
Qed.

End SilentProps.

(** ** DebugLogInt when a write fails *)

Section FirstErrorProps.

Context {W : Type} (tb : Toolbox W).

Lemma FSWrite_keeps_globals (s : Sys W) r c b :
  gDebugRefNum (snd (FSWrite tb r c b s)) = gDebugRefNum s
  /\ gDebugEnabled (snd (FSWrite tb r c b s)) = gDebugEnabled s.
Proof.
  unfold FSWrite.
  destruct (tb_FSWrite tb (world s) r c (take (Z.to_nat c) b))
    as [w [err written]].
  split; reflexivity.
Qed.

Lemma FSWrite_text (s : Sys W) r (p : cstr) :
  FSWrite tb r (MyStrLen p) (deref p) s
  = FSWrite tb r (Z.of_nat (length (text_of p))) (text_of p) s.
Proof.
  unfold FSWrite. rewrite text_of_length. fold (text_of p).
  rewrite (take_ge (text_of p))
    by (pose proof (text_of_length p); lia).
  reflexivity.
Qed.

Lemma write_until_error_app bufs1 bufs2 : forall (s : Sys W) r,
  write_until_error tb r (bufs1 ++ bufs2) s
  = let (ok, s') := write_until_error tb r bufs1 s in
    if ok then write_until_error tb r bufs2 s' else (false, s').
Proof.
  induction bufs1 as [|buf bufs1 IH]; intros s r; [reflexivity|].
  cbn [app write_until_error]. unfold mbind, M_bind.
  destruct (FSWrite tb r (Z.of_nat (length buf)) buf s) as [[err written] s1].
  destruct (negb (err =? noErr)); [reflexivity|apply IH].
Qed.

(** The loop over [numBuf] is the piecewise write of its used bytes, last
    byte first. *)
Lemma write_reversed_pieces n buf : forall s : Sys W,
  (n <= length buf)%nat ->
  write_reversed tb n buf s
  = write_until_error tb (gDebugRefNum s)
      (map (fun c => [c]) (reverse (take n buf))) s.
Proof.
  induction n as [|j IH]; intros s Hn; [reflexivity|].
  destruct (lookup_lt_is_Some_2 buf j ltac:(lia)) as [c Hc].
  rewrite (take_S_r _ _ _ Hc), reverse_snoc.
  cbn [write_reversed map write_until_error].
  unfold mbind, M_bind, get_RefNum. rewrite (drop_S _ _ _ Hc).
  change (FSWrite tb (gDebugRefNum s) 1 (c :: drop (S j) buf) s)
    with (FSWrite tb (gDebugRefNum s) (Z.of_nat (length [c])) [c] s).
  pose proof (FSWrite_keeps_globals s (gDebugRefNum s)
                (Z.of_nat (length [c])) [c]) as [Href _].
  destruct (FSWrite tb (gDebugRefNum s) (Z.of_nat (length [c])) [c] s)
    as [[err written] s1].
  cbn [snd] in Href.
  destruct (negb (err =? noErr)); [reflexivity|].
  rewrite IH by lia. rewrite Href. reflexivity.
Qed.

Lemma write_until_error_keeps_globals bufs : forall (s : Sys W) r,
  gDebugRefNum (snd (write_until_error tb r bufs s)) = gDebugRefNum s
  /\ gDebugEnabled (snd (write_until_error tb r bufs s)) = gDebugEnabled s.
Proof.
  induction bufs as [|buf bufs IH]; intros s r; [split; reflexivity|].
  cbn [write_until_error]. unfold mbind, M_bind.
  pose proof (FSWrite_keeps_globals s r (Z.of_nat (length buf)) buf)
    as [Href Hen].
  destruct (FSWrite tb r (Z.of_nat (length buf)) buf s)
    as [[err written] s1].
  cbn [snd] in Href, Hen.
  destruct (negb (err =? noErr)); [split; assumption|].
  destruct (IH s1 r) as [Href' Hen']. split; congruence.
Qed.

Lemma write_CR_pieces (s : Sys W) :
  snd ((FSWrite tb (gDebugRefNum s) 1 [CR];; mret ()) s)
  = snd (write_until_error tb (gDebugRefNum s) [[CR]] s).
Proof.
  cbn [write_until_error]. unfold mbind, M_bind, mret, M_ret.
  change (FSWrite tb (gDebugRefNum s) (Z.of_nat (length [CR])) [CR] s)
    with (FSWrite tb (gDebugRefNum s) 1 [CR] s).
  destruct (FSWrite tb (gDebugRefNum s) 1 [CR] s) as [[err written] s1].
  destruct (negb (err =? noErr)); reflexivity.
Qed.

Lemma DebugLogInt_pieces (s : Sys W) (prefix : list ascii) (value : Z) :
  gDebugEnabled s = true -> gDebugRefNum s <> 0 -> long_range value ->
  exec (DebugLogInt tb (Some prefix) value) s
  = exec (write_until_error tb (gDebugRefNum s)
            (int_record_writes prefix value)) s.
Proof.
  intros Hen Href Hr.
  pose proof (format_long_used value Hr) as Hused.
  unfold int_record_writes, long_text, exec, DebugLogInt.
  destruct s as [ref enabled w tr]. cbn [gDebugEnabled gDebugRefNum] in *.
  subst enabled.
  unfold mbind, M_bind, mret, M_ret, get_Enabled, get_RefNum. sys_simpl.
  rewrite (proj2 (Z.eqb_neq ref 0) Href). cbn [is_nil orb negb].
  destruct (format_long value) as [numBuf i].
  destruct Hused as (Hi & Hbuf & _).
  set (s0 := mkSys ref true w tr).
  rewrite write_until_error_app.
  destruct (MyStrLen (Some prefix) >? 0).
  - cbn [write_until_error]. unfold mbind, M_bind, mret, M_ret.
    rewrite FSWrite_text.
    pose proof (FSWrite_keeps_globals s0 ref
                  (Z.of_nat (length (text_of (Some prefix))))
                  (text_of (Some prefix))) as [Href1 _].
    destruct (FSWrite tb ref (Z.of_nat (length (text_of (Some prefix))))
                (text_of (Some prefix)) s0) as [[err written] s1].
    cbn [snd] in Href1. change (gDebugRefNum s0) with ref in Href1.
    destruct (err =? noErr); cbn [negb]; [|reflexivity].
    rewrite write_until_error_app, write_reversed_pieces by lia.
    rewrite Href1.
    destruct (write_until_error tb ref
                (map (fun c => [c]) (reverse (take (Z.to_nat i) numBuf))) s1)
      as [finished s2] eqn:E2.
    destruct finished; cbn [negb]; [|reflexivity].
    pose proof (write_until_error_keeps_globals
                  (map (fun c => [c]) (reverse (take (Z.to_nat i) numBuf)))
                  s1 ref) as [Href2 _].
    rewrite E2 in Href2. cbn [snd] in Href2. rewrite Href1 in Href2.
    pose proof (write_CR_pieces s2) as HCR. rewrite Href2 in HCR.
    unfold mbind, M_bind, mret, M_ret in HCR. rewrite Href2. exact HCR.
  - cbn [write_until_error app]. unfold mbind, M_bind, mret, M_ret.
    cbn [negb].
    rewrite write_until_error_app, write_reversed_pieces by lia.
    change (gDebugRefNum s0) with ref.
    destruct (write_until_error tb ref
                (map (fun c => [c]) (reverse (take (Z.to_nat i) numBuf))) s0)
      as [finished s2] eqn:E2.
    destruct finished; cbn [negb]; [|reflexivity].
    pose proof (write_until_error_keeps_globals
                  (map (fun c => [c]) (reverse (take (Z.to_nat i) numBuf)))
                  s0 ref) as [Href2 _].
    rewrite E2 in Href2. cbn [snd] in Href2.
    change (gDebugRefNum s0) with ref in Href2.
    pose proof (write_CR_pieces s2) as HCR. rewrite Href2 in HCR.
    unfold mbind, M_bind, mret, M_ret in HCR. rewrite Href2. exact HCR.
Qed.

(** What a piecewise write leaves in the trace: writes of the first [k]
    pieces, none of which failed except possibly the last, and a failed
    last one when pieces are left over. *)
Lemma write_until_error_trace bufs : forall (s : Sys W) r,
  exists evs k,
    trace (exec (write_until_error tb r bufs) s) = trace s ++ evs
    /\ (k <= length bufs)%nat
    /\ writes_of r (take k bufs) evs
    /\ existsb write_failed (take (pred k) evs) = false
    /\ ((k < length bufs)%nat ->
        exists e, last evs = Some e /\ write_failed e = true).
Proof.
  induction bufs as [|buf bufs IH]; intros s r.
  - exists [], 0%nat. cbn. rewrite app_nil_r.
    split; [reflexivity|]. split; [lia|]. split; [constructor|].
    split; [reflexivity|lia].
  - unfold exec. cbn [write_until_error]. unfold mbind, M_bind, FSWrite.
    rewrite Nat2Z.id, (take_ge buf) by lia.
    destruct (tb_FSWrite tb (world s) r (Z.of_nat (length buf)) buf)
      as [w1 [err written]].
    set (e1 := EvFSWrite r (Z.of_nat (length buf)) buf err written).
    destruct (negb (err =? noErr)) eqn:Eerr.
    + exists [e1], 1%nat. cbn [snd called trace length take pred existsb].
      repeat split; [lia| |].
      * constructor; [do 2 eexists; reflexivity|constructor].
      * intros _. exists e1. split; [reflexivity|exact Eerr].
    + destruct (IH (called w1 e1 s) r) as (evs & k & Ht & Hk & Hw & Hok & Hlast).
      unfold exec in Ht. exists (e1 :: evs), (S k). rewrite Ht.
      cbn [called trace length take pred]. rewrite <- app_assoc.
      repeat split; [lia| | |].
      * constructor; [do 2 eexists; reflexivity|exact Hw].
      * destruct k as [|k']; [reflexivity|].
        cbn [take existsb pred] in *. subst e1. cbn [write_failed].
        rewrite Eerr. exact Hok.
      * intros Hlt. destruct (Hlast ltac:(lia)) as (e & He & Hfail).
        exists e. split; [|exact Hfail].
        destruct evs as [|e2 evs]; [discriminate|exact He].
Qed.

(** X5.  For an enabled logger with a reference number, [DebugLogInt]
    behaves as the piecewise write of its record (the prefix unless
    empty, each character of the numeral on its own, the carriage return)
    that stops behind the first write that answers an error.  So whatever
    the Toolbox answers, the writes asked for are an initial part of
    these pieces, in order; no write but the last one asked for has
    failed; and pieces are left out only behind a failed write.  The byte
    counts the writes answer are not looked at. *)
Theorem DebugLogInt_stops_at_first_error
    (s : Sys W) (prefix : list ascii) (value : Z) :
  gDebugEnabled s = true -> gDebugRefNum s <> 0 -> long_range value ->
  let ref := gDebugRefNum s in
  let pieces := int_record_writes prefix value in
  let s' := exec (DebugLogInt tb (Some prefix) value) s in
  let evs := events_since s s' in
  s' = exec (write_until_error tb ref pieces) s
  /\ exists k,
       (k <= length pieces)%nat
       /\ writes_of ref (take k pieces) evs
       /\ existsb write_failed (take (pred k) evs) = false
       /\ ((k < length pieces)%nat ->
           exists e, last evs = Some e /\ write_failed e = true).
Proof.
  intros Hen Href Hr ref pieces s' evs.
  assert (Hs' : s' = exec (write_until_error tb ref pieces) s)
    by (apply DebugLogInt_pieces; assumption).
  split; [exact Hs'|].
  destruct (write_until_error_trace pieces s ref)
    as (evs0 & k & Ht & Hk & Hw & Hok & Hlast).
  assert (Hevs : evs = evs0).
  { subst evs. unfold events_since. rewrite Hs', Ht.
    apply drop_app_length. }
  rewrite Hevs. exists k. repeat split; assumption.
Qed.

End FirstErrorProps.

(** ** DebugLog and DebugLogFormat when nothing fails *)

Section VerbatimProps.

Context {W : Type} (tb : Toolbox W).

(** X6.  For a message that passes the preconditions and has at most
    32000 bytes, and an [FSWrite] that takes every byte, [DebugLog] sends
    the bytes of the message before its NUL, unchanged, and a carriage
    return, in two writes and without any [SysBeep].  [DebugLogFormat]
    does the same with its format: a conversion such as "%d" in it is
    written as it stands. *)
Theorem DebugLog_record (s : Sys W) (msg : list ascii) :
  reliable tb -> first_failed s (Some msg) = None -> c_strlen msg <= 32000 ->
  let ref := gDebugRefNum s in
  let evs := events_since s (exec (DebugLog tb (Some msg)) s) in
  evs = [complete_write ref (c_text msg); complete_write ref [CR]]
  /\ written_to ref evs = c_text msg ++ [CR]
  /\ beeps evs = []
  /\ exec (DebugLogFormat tb (Some msg)) s = exec (DebugLog tb (Some msg)) s.
Proof.
  intros Hrel Hpre Hlen ref evs. subst ref evs.
  rewrite DebugLog_reliable by assumption.
  rewrite text_of_c_text by assumption.
  split; [reflexivity|]. split; [|split; reflexivity].
  change ([complete_write (gDebugRefNum s) (c_text msg);
           complete_write (gDebugRefNum s) [CR]])
    with (map (complete_write (gDebugRefNum s)) [c_text msg; [CR]]).
  rewrite written_to_complete. cbn [concat]. rewrite app_nil_r. reflexivity.
Qed.

End VerbatimProps.

(** ** The numeral of DebugLogInt, read back *)

Lemma digit_is_not_minus d : is_digit d = true -> Ascii.eqb d "-" = false.
Proof.
  intros Hd. apply Ascii.eqb_neq. intros ->. discriminate Hd.
Qed.

Lemma read_decimal_long_text v : long_range v -> read_decimal (long_text v) = v.
Proof.
  intros Hr. pose proof (format_long_used v Hr) as H.
  unfold long_text. destruct (format_long v) as [numBuf i].
  destruct H as (_ & _ & ->).
  assert (Hr' : -2147483648 <= v < 2147483648) by exact Hr.
  assert (Hpow : 10 ^ Z.of_nat 19 = 10000000000000000000) by reflexivity.
  destruct (Z.ltb_spec v 0) as [Hneg|Hpos].
  - destruct (Z.eqb_spec v 0) as [|_]; [lia|].
    cbn [app read_decimal]. change (Ascii.eqb "-" "-") with true. cbv iota.
    rewrite lsd_digits_value by lia. lia.
  - destruct (Z.eqb_spec v 0) as [->|Hnz]; [reflexivity|].
    cbn [app].
    destruct (lsd_digits_leading 19 (Z.abs v) ltac:(lia))
      as (d & rest & Hrev & _).
    pose proof (lsd_digits_value 19 (Z.abs v) ltac:(lia)) as Hval.
    assert (Hd : is_digit d = true).
    { pose proof (lsd_digits_are_digits 19 (Z.abs v)) as Hall.
      rewrite forallb_forall in Hall. apply Hall.
      apply list_elem_of_In, elem_of_reverse. rewrite Hrev. left. }
    rewrite Hrev in *. cbn [read_decimal].
    rewrite (digit_is_not_minus d Hd). lia.
Qed.

(** X7.  What [DebugLogInt] writes for a [long] reads back as that value:
    a leading minus sign negates the number its digits denote.  So two
    different values never give the same text. *)
Theorem long_text_round_trip (v1 v2 : Z) :
  long_range v1 -> long_range v2 ->
  read_decimal (long_text v1) = v1
  /\ (long_text v1 = long_text v2 -> v1 = v2).
Proof.
  intros Hr1 Hr2. split; [apply read_decimal_long_text; assumption|].
  intros Heq.
  rewrite <- (read_decimal_long_text v1 Hr1), <- (read_decimal_long_text v2 Hr2).
  rewrite Heq. reflexivity.
Qed.

(** ** The buffer of DebugLogInt *)

Lemma lsd_digits_length_bound fuel : forall a k,
  0 <= a < 10 ^ Z.of_nat k -> (length (lsd_digits fuel a) <= k)%nat.
Proof.
  induction fuel as [|fuel IH]; intros a k Ha; cbn [lsd_digits length];
    [lia|].
  destruct (Z.gtb_spec a 0) as [Hpos|Hzero]; cbn [length]; [|lia].
  destruct k as [|k]; [simpl in Ha; lia|].
  rewrite Nat2Z.inj_succ, Z.pow_succ_r in Ha by lia.
  specialize (IH (a / 10) k).
  assert (0 <= a / 10 < 10 ^ Z.of_nat k).
  { split; [apply Z.div_pos; lia|]. apply Z.div_lt_upper_bound; lia. }
  specialize (IH ltac:(assumption)). lia.
Qed.

Lemma digits_loop_leftover fuel : forall a i buf,
  0 <= a < 2 ^ 32 -> a < 10 ^ Z.of_nat fuel -> 0 <= i ->
  i + Z.of_nat fuel <= 19 ->
  let '(_, _, remaining) := digits_loop fuel a i buf in remaining = 0.
Proof.
  induction fuel as [|fuel IH]; intros a i buf Ha Hpow Hi Hfuel.
  - simpl in *. lia.
  - cbn [digits_loop].
    destruct (Z.gtb_spec a 0) as [Hpos|Hzero]; cbn [andb]; [|lia].
    destruct (Z.ltb_spec i 19) as [Hlt|Hge]; [|lia].
    rewrite Nat2Z.inj_succ, Z.pow_succ_r in Hpow by lia.
    assert (Hq : 0 <= a / 10 < 2 ^ 32).
    { split; [apply Z.div_pos; lia|]. apply Z.div_lt_upper_bound; lia. }
    rewrite to_ulong_id by assumption.
    rewrite to_short_id by (change (2 ^ 15) with 32768; lia).
    apply IH; try lia. apply Z.div_lt_upper_bound; lia.
Qed.

(** X8.  For every [long] the conversion uses between 1 and 11 of the 20
    bytes of [numBuf] (ten digits and a sign at most), so no index leaves
    the array, and the digit loop ends because nothing is left of the
    magnitude, never because of its bound of 19 rounds: no digit is lost. *)
Theorem format_long_fits (value : Z) :
  long_range value ->
  let '(numBuf, i) := format_long value in
  let '(_, _, remaining) :=
    digits_loop 19 (Z.abs value) 0 (replicate 20 NUL) in
  1 <= i <= 11
  /\ length numBuf = 20%nat
  /\ Z.of_nat (length (long_text value)) = i
  /\ remaining = 0.
Proof.
  intros Hr.
  assert (Hr' : -2147483648 <= value < 2147483648) by exact Hr.
  pose proof (format_long_used value Hr) as Hused.
  pose proof (digits_loop_leftover 19 (Z.abs value) 0 (replicate 20 NUL)
                ltac:(change (2 ^ 32) with 4294967296; lia)
                ltac:(change (10 ^ Z.of_nat 19) with 10000000000000000000;
                      lia)
                ltac:(lia) ltac:(lia)) as Hleft.
  pose proof (lsd_digits_length_bound 19 (Z.abs value) 10
                ltac:(change (10 ^ Z.of_nat 10) with 10000000000; lia))
    as Hdigits.
  unfold long_text. destruct (format_long value) as [numBuf i].
  destruct (digits_loop 19 (Z.abs value) 0 (replicate 20 NUL))
    as [[buf' i'] remaining].
  destruct Hused as (Hi & Hbuf & Htext).
  assert (Hlen : Z.of_nat (length (reverse (take (Z.to_nat i) numBuf))) = i).
  { rewrite length_reverse, length_take. lia. }
  split; [|split; [exact Hbuf|split; [exact Hlen|exact Hleft]]].
  rewrite Htext in Hlen. rewrite length_app in Hlen.
  destruct (value <? 0), (value =? 0); cbn [length] in Hlen;
    rewrite ?length_reverse in Hlen; lia.
Qed.

(** ** Logging and the life cycle *)

Section FrameProps.

Context {W : Type} (tb : Toolbox W).

Lemma run_op_only_logs (s : Sys W) (o : Op) :
  lifecycle_op o = false -> only_logs s (run_op tb s o).
Proof.
  intros Ho. destruct o; try discriminate Ho; cbn [run_op].
  - apply logs_only_DebugLog.
  - apply logs_only_DebugLogInt.
  - apply logs_only_DebugLogHex.
  - apply logs_only_DebugLogFormat.
  - apply only_logs_refl.
  - apply only_logs_refl.
Qed.

(** X9.  [DebugLog], [DebugLogInt], [DebugLogHex], [DebugLogFormat],
    [DebugFlush] and [DebugIsEnabled] never change [gDebugRefNum] or
    [gDebugEnabled] and never open, close, create or delete a file,
    whatever the Toolbox answers: a write that fails leaves the logger as
    enabled as it was.  They only add [FSWrite] and [SysBeep] events to
    the trace, so the files that are open stay the same. *)
Theorem logging_keeps_lifecycle (s : Sys W) (o : Op) :
  lifecycle_op o = false ->
  let s' := run_op tb s o in
  gDebugRefNum s' = gDebugRefNum s
  /\ gDebugEnabled s' = gDebugEnabled s
  /\ (exists evs, trace s' = trace s ++ evs /\ forallb quiet evs = true)
  /\ open_handles (trace s') = open_handles (trace s).
Proof.
  intros Ho s'.
  destruct (run_op_only_logs s o Ho) as (Hr & He & evs & Ht & Hq).
  subst s'. split; [exact Hr|]. split; [exact He|].
  split; [exists evs; split; assumption|].
  rewrite Ht, open_handles_app. apply quiet_handles. exact Hq.
Qed.

Lemma DebugClose_globals (s : Sys W) :
  gDebugEnabled (exec (DebugClose tb) s) = false
  /\ gDebugRefNum (exec (DebugClose tb) s) = 0.
Proof.
  destruct s as [ref enabled w tr]. unfold DebugClose. unfold_sys. sys_simpl.
  destruct (negb (ref =? 0)) eqn:E; sys_simpl;
    repeat (step_toolbox; sys_simpl).
  - split; reflexivity.
  - split; [reflexivity|]. apply Z.eqb_eq.
    destruct (ref =? 0); [reflexivity|discriminate].
Qed.

Lemma silent_when_disabled (s : Sys W) message value :
  gDebugEnabled s = false ->
  exec (DebugLogInt tb message value) s = s
  /\ exec (DebugLogHex tb message value) s = s.
Proof.
  intros H. destruct s as [ref enabled w tr]. cbn [gDebugEnabled] in H.
  subst enabled. split; reflexivity.
Qed.

(** X10.  From a state that satisfies the invariant, [DebugClose] leaves
    no file open; and in the state it leaves, [DebugIsEnabled] answers
    [false], [DebugLog] is turned away with [SysBeep(5)] whatever the
    message, and [DebugLogInt], [DebugLogHex] and a second [DebugClose]
    change nothing. *)
Theorem DebugClose_then_log (s : Sys W) (message : cstr) (value : Z) :
  Inv s ->
  let s' := exec (DebugClose tb) s in
  open_handles (trace s') = []
  /\ result DebugIsEnabled s' = false
  /\ events_since s' (exec (DebugLog tb message) s') = [EvSysBeep 5]
  /\ exec (DebugLogInt tb message value) s' = s'
  /\ exec (DebugLogHex tb message value) s' = s'
  /\ exec (DebugClose tb) s' = s'.
Proof.
  intros HI s'.
  destruct (Inv_DebugClose tb s HI) as (_ & Hopen & _).
  destruct (DebugClose_globals s) as [Hen Href]. fold s' in Hopen, Hen, Href.
  rewrite Href in Hopen.
  split; [exact Hopen|]. split; [exact Hen|]. split.
  - rewrite (DebugLog_rejects tb s' message LoggerEnabled).
    + unfold called. since. reflexivity.
    + unfold first_failed. rewrite Hen. reflexivity.
  - destruct (silent_when_disabled s' message value Hen) as [Hint Hhex].
    split; [exact Hint|]. split; [exact Hhex|].
    clearbody s'. destruct s' as [ref enabled w tr].
    cbn [gDebugEnabled gDebugRefNum] in Hen, Href. subst. reflexivity.
Qed.

End FrameProps.

(** ** From DebugInit to DebugClose *)

Section SessionProps.

Context {W : Type} (tb : Toolbox W).

Lemma DebugInit_succeeded (s : Sys W) (filename : cstr) :
  opens_nonzero tb ->
  result (DebugInit tb filename) s = true ->
  let s1 := exec (DebugInit tb filename) s in
  gDebugEnabled s1 = true
  /\ gDebugRefNum s1 <> 0
  /\ exists name, EvFSOpen name 0 noErr (gDebugRefNum s1) ∈ events_since s s1.
Proof.
  intros Hnz. destruct s as [ref enabled w tr]. cbv zeta.
  destruct filename as [name|]; init_run; since; intros Hres;
    try discriminate Hres;
    repeat match goal with
           | H : tb_FSOpen tb ?w0 ?n ?v = (_, (?e, ?z)) |- _ =>
               let Hz := fresh "Hz" in
               pose proof (Hnz w0 n v) as Hz; rewrite H in Hz;
               cbn [fst snd] in Hz; clear H
           end;
    repeat match goal with
           | H : (?e =? 0) = true |- _ => apply Z.eqb_eq in H; subst e
           end;
    (split; [reflexivity|]); (split; [apply Hz; reflexivity|]);
    eexists; apply list_elem_of_In; simpl; eauto 10.
Qed.

(** X11.  When [DebugInit] has answered [true] (and the File Manager does
    not use 0 as a reference number), a [DebugLog] of a non-empty message
    right after passes all four preconditions and starts with the write
    of the message to the file that [DebugInit] has opened. *)
Theorem DebugInit_then_DebugLog
    (s : Sys W) (filename : cstr) (msg : list ascii) :
  opens_nonzero tb ->
  result (DebugInit tb filename) s = true ->
  0 < c_strlen msg ->
  let s1 := exec (DebugInit tb filename) s in
  first_failed s1 (Some msg) = None
  /\ (exists name,
        EvFSOpen name 0 noErr (gDebugRefNum s1) ∈ events_since s s1)
  /\ exists err written rest,
       events_since s1 (exec (DebugLog tb (Some msg)) s1)
       = EvFSWrite (gDebugRefNum s1) (MyStrLen (Some msg))
           (text_of (Some msg)) err written :: rest.
Proof.
  intros Hnz Hres Hmsg s1.
  destruct (DebugInit_succeeded s filename Hnz Hres) as (Hen & Href & Hopen).
  fold s1 in Hen, Href, Hopen.
  assert (Hpre : first_failed s1 (Some msg) = None).
  { unfold first_failed. rewrite Hen. cbn [negb].
    rewrite (proj2 (Z.eqb_neq _ _) Href).
    destruct (Z.eqb_spec (c_strlen msg) 0); [lia|reflexivity]. }
  split; [exact Hpre|]. split; [exact Hopen|].
  apply DebugLog_first_write. exact Hpre.
Qed.

Lemma events_since_extends (s s' : Sys W) evs :
  trace s' = trace s ++ evs -> events_since s s' = evs.
Proof. intros H. unfold events_since. rewrite H. apply drop_app_length. Qed.

Lemma only_logs_trace (s s' : Sys W) :
  only_logs s s' -> trace s' = trace s ++ events_since s s'.
Proof.
  intros (_ & _ & evs & Ht & _).
  rewrite (events_since_extends s s' evs Ht). exact Ht.
Qed.

Lemma events_since_same (s : Sys W) : events_since s s = [].
Proof. unfold events_since. apply drop_all. Qed.

Lemma DebugLog_cooperative (s : Sys W) (message : cstr) :
  reliable tb -> gDebugEnabled s = true -> gDebugRefNum s <> 0 ->
  written_to (gDebugRefNum s) (events_since s (exec (DebugLog tb message) s))
  = record_of (OpLog message).
Proof.
  intros Hrel Hen Href. cbn [record_of].
  destruct (first_failed s message) as [p|] eqn:Hpre.
  - rewrite (DebugLog_rejects tb s message p Hpre). unfold called. since.
    unfold first_failed in Hpre. rewrite Hen in Hpre. cbn [negb] in Hpre.
    rewrite (proj2 (Z.eqb_neq _ _) Href) in Hpre.
    destruct message as [msg|]; [|reflexivity].
    rewrite MyStrLen_min.
    destruct (Z.eqb_spec (c_strlen msg) 0) as [->|]; [reflexivity|discriminate].
  - unfold first_failed in Hpre. rewrite Hen in Hpre. cbn [negb] in Hpre.
    rewrite (proj2 (Z.eqb_neq _ _) Href) in Hpre.
    destruct message as [msg|]; [|discriminate].
    assert (Hn : (MyStrLen (Some msg) =? 0) = false).
    { rewrite MyStrLen_min. pose proof (c_strlen_nonneg msg).
      destruct (Z.eqb_spec (c_strlen msg) 0); [discriminate|].
      apply Z.eqb_neq. lia. }
    rewrite Hn. rewrite DebugLog_reliable.
    + rewrite written_to_complete. cbn [concat]. rewrite app_nil_r.
      reflexivity.
    + exact Hrel.
    + unfold first_failed. rewrite Hen. cbn [negb].
      rewrite (proj2 (Z.eqb_neq _ _) Href). exact Hpre.
Qed.

(** What one logging call adds to the file when no write fails. *)
Lemma run_op_cooperative (s : Sys W) (o : Op) :
  reliable tb -> gDebugEnabled s = true -> gDebugRefNum s <> 0 ->
  logging_op o ->
  let s' := run_op tb s o in
  gDebugEnabled s' = true
  /\ gDebugRefNum s' = gDebugRefNum s
  /\ written_to (gDebugRefNum s) (trace s')
     = written_to (gDebugRefNum s) (trace s) ++ record_of o.
Proof.
  intros Hrel Hen Href [Hlog Hrange] s'.
  pose proof (run_op_only_logs tb s o Hlog) as Hlogs. fold s' in Hlogs.
  pose proof (only_logs_trace s s' Hlogs) as Ht.
  destruct Hlogs as (Hr & He & _).
  split; [congruence|]. split; [exact Hr|].
  rewrite Ht, written_to_app. f_equal. subst s'.
  destruct o as [f|m|m v|m v|m| | |]; try discriminate Hlog; cbn [run_op].
  - apply DebugLog_cooperative; assumption.
  - destruct m as [prefix|].
    + rewrite DebugLogInt_events by assumption.
      rewrite written_to_complete, !concat_app, concat_singletons.
      cbn [record_of concat]. rewrite !app_nil_r. f_equal.
      destruct (Z.gtb_spec (MyStrLen (Some prefix)) 0) as [Hpos|Hzero].
      * apply app_nil_r.
      * unfold text_of. pose proof (MyStrLen_range (Some prefix)).
        replace (MyStrLen (Some prefix)) with 0 by lia. reflexivity.
    + destruct s as [ref enabled w tr]. cbn [gDebugEnabled] in Hen.
      subst enabled. cbn [record_of].
      replace (exec (DebugLogInt tb None v) (mkSys ref true w tr))
        with (mkSys ref true w tr).
      * rewrite events_since_same. reflexivity.
      * unfold DebugLogInt. unfold_sys. sys_simpl. cbn [is_nil].
        rewrite orb_true_r. reflexivity.
  - destruct m as [prefix|].
    + apply DebugLogHex_reliable; assumption.
    + destruct s as [ref enabled w tr]. cbn [gDebugEnabled] in Hen.
      subst enabled. cbn [record_of].
      replace (exec (DebugLogHex tb None v) (mkSys ref true w tr))
        with (mkSys ref true w tr).
      * rewrite events_since_same. reflexivity.
      * unfold DebugLogHex. unfold_sys. sys_simpl. cbn [is_nil].
        rewrite orb_true_r. reflexivity.
  - destruct m as [format|].
    + change (exec (DebugLogFormat tb (Some format)) s)
        with (exec (DebugLog tb (Some format)) s).
      apply DebugLog_cooperative; assumption.
    + change (exec (DebugLogFormat tb None) s) with s.
      rewrite events_since_same. reflexivity.
  - change (exec DebugFlush s) with s. rewrite events_since_same. reflexivity.
  - change (exec DebugIsEnabled s) with s. rewrite events_since_same.
    reflexivity.
Qed.

Lemma run_cooperative (ops : list Op) : forall s : Sys W,
  reliable tb -> gDebugEnabled s = true -> gDebugRefNum s <> 0 ->
  Forall logging_op ops ->
  gDebugEnabled (run tb ops s) = true
  /\ gDebugRefNum (run tb ops s) = gDebugRefNum s
  /\ written_to (gDebugRefNum s) (trace (run tb ops s))
     = written_to (gDebugRefNum s) (trace s) ++ concat (map record_of ops).
Proof.
  induction ops as [|o ops IH]; intros s Hrel Hen Href Hops.
  - cbn [run foldl map concat]. rewrite app_nil_r.
    split; [exact Hen|]. split; reflexivity.
  - apply Forall_cons in Hops as [Ho Hops].
    destruct (run_op_cooperative s o Hrel Hen Href Ho) as (Hen1 & Href1 & Hw1).
    cbn [run foldl map concat]. fold (run tb ops (run_op tb s o)).
    destruct (IH (run_op tb s o) Hrel Hen1 ltac:(congruence) Hops)
      as (Hen2 & Href2 & Hw2).
    rewrite Href1 in Hw2, Href2.
    split; [exact Hen2|]. split; [exact Href2|].
    rewrite Hw2, Hw1, app_assoc. reflexivity.
Qed.

Lemma DebugInit_cooperative (w : W) (name : list ascii) :
  cooperative tb ->
  let s1 := exec (DebugInit tb (Some name)) (initial w) in
  gDebugEnabled s1 = true
  /\ gDebugRefNum s1 <> 0
  /\ written_to (gDebugRefNum s1) (trace s1) = headerMsg.
Proof.
  intros (Hrel & Hnz & Hcreate & Hopen). cbv zeta.
  unfold initial, DebugInit. unfold_sys. unfold noErr in *.
  change (MyStrLen (Some headerMsg)) with 22.
  change (take (Z.to_nat 22) headerMsg) with headerMsg.
  sys_simpl. change (negb (0 =? 0)) with false. cbv iota. sys_simpl.
  repeat (first [step_toolbox | step_cond]; sys_simpl);
    repeat match goal with
           | H : tb_Create tb ?w0 ?n ?v ?c ?t = (_, ?e) |- _ =>
               let Hc := fresh "Hc" in
               pose proof (Hcreate w0 n v c t) as Hc; rewrite H in Hc;
               cbn [snd] in Hc; clear H
           | H : tb_FSOpen tb ?w0 ?n ?v = (_, (?e, ?z)) |- _ =>
               let Ho := fresh "Ho" in
               let Hz := fresh "Hz" in
               pose proof (Hopen w0 n v) as Ho;
               pose proof (Hnz w0 n v) as Hz; rewrite H in Ho, Hz;
               cbn [fst snd] in Ho, Hz; clear H
           | H : tb_FSWrite tb ?w0 ?r ?c ?b = (_, (?e, ?z)) |- _ =>
               let Hw := fresh "Hw" in
               pose proof (Hrel w0 r c b) as Hw; rewrite H in Hw;
               cbn [snd] in Hw; clear H
           end;
    unfold noErr in *; try congruence; subst; try discriminate.
  injection Hw as -> ->.
  split; [reflexivity|]. split; [apply Hz; reflexivity|].
  unfold written_to. cbn [app map concat written_of]. rewrite Z.eqb_refl.
  change (take (Z.to_nat 22) headerMsg) with headerMsg.
  apply app_nil_r.
Qed.

Lemma DebugClose_cooperative (s : Sys W) :
  reliable tb -> gDebugRefNum s <> 0 ->
  written_to (gDebugRefNum s) (trace (exec (DebugClose tb) s))
  = written_to (gDebugRefNum s) (trace s) ++ endMsg.
Proof.
  intros Hrel Href. destruct s as [ref enabled w tr].
  cbn [gDebugRefNum] in *.
  unfold DebugClose. unfold_sys. sys_simpl.
  rewrite (proj2 (Z.eqb_neq _ _) Href). cbn [negb]. sys_simpl.
  change (MyStrLen (Some endMsg)) with 17.
  change (take (Z.to_nat 17) endMsg) with endMsg.
  pose proof (Hrel w ref 17 endMsg) as Hw.
  destruct (tb_FSWrite tb w ref 17 endMsg) as [w1 [e1 n1]].
  cbn [snd] in Hw. injection Hw as -> ->. sys_simpl.
  destruct (tb_FSClose tb w1 ref) as [w2 e2]. sys_simpl.
  rewrite <- app_assoc, written_to_app. f_equal.
  unfold written_to. cbn [app map concat written_of]. rewrite Z.eqb_refl.
  change (take (Z.to_nat 17) endMsg) with endMsg.
  apply app_nil_r.
Qed.

(** X12.  A whole session on a Toolbox on which nothing fails:
    [DebugInit] with a name, then any logging calls (with [long] values),
    then [DebugClose].  The file that was opened has received the header
    line, the record of each call in the order of the calls, and the
    footer line, and nothing else; the logger ends disabled with no
    reference number and no file left open. *)
Theorem session_file_content (w : W) (name : list ascii) (ops : list Op) :
  cooperative tb -> Forall logging_op ops ->
  let s := run tb (OpInit (Some name) :: ops ++ [OpClose]) (initial w) in
  exists r,
    r <> 0
    /\ written_to r (trace s)
       = headerMsg ++ concat (map record_of ops) ++ endMsg
    /\ gDebugEnabled s = false
    /\ gDebugRefNum s = 0
    /\ open_handles (trace s) = [].
Proof.
  intros Hcoop Hops s.
  pose proof Hcoop as (Hrel & Hnz & _).
  destruct (DebugInit_cooperative w name Hcoop) as (Hen1 & Href1 & Hw1).
  set (s1 := exec (DebugInit tb (Some name)) (initial w)) in *.
  destruct (run_cooperative ops s1 Hrel Hen1 Href1 Hops)
    as (Hen2 & Href2 & Hw2).
  set (s2 := run tb ops s1) in *.
  assert (Hs : s = exec (DebugClose tb) s2).
  { subst s s2 s1. unfold run. cbn [foldl run_op]. rewrite foldl_app.
    reflexivity. }
  exists (gDebugRefNum s1). split; [exact Href1|].
  destruct (DebugClose_globals tb s2) as [Hen3 Href3].
  rewrite Hs. split; [|split; [exact Hen3|split; [exact Href3|]]].
  - rewrite <- Href2.
    rewrite DebugClose_cooperative by (try assumption; congruence).
    rewrite Href2, Hw2, Hw1, <- app_assoc. reflexivity.
  - assert (HI : Inv s2).
    { subst s2 s1. apply Inv_run; [exact Hnz|].
      apply Inv_DebugInit; [exact Hnz|apply Inv_initial]. }
    destruct (Inv_DebugClose tb s2 HI) as (_ & Hopen & _).
    rewrite Href3 in Hopen. exact Hopen.
Qed.

End SessionProps.

(** * The further properties on concrete runs *)

Lemma cooperative_perfect : cooperative perfect.
Proof.
  split; [exact reliable_perfect|]. split; [exact opens_nonzero_perfect|].
  split; intros; reflexivity.
Qed.

Lemma DebugInit_keeps_short_name_witness :
  let s := initial tt in
  c_strlen (chars "debug.txt") <= 255
  /\ name_uses (events_since s (exec (DebugInit perfect (lit "debug.txt")) s))
     = [(UseDelete, chars "debug.txt"); (UseCreate, chars "debug.txt");
        (UseOpen, chars "debug.txt")].
Proof.
  cbv zeta.
  assert (Hshort : c_strlen (chars "debug.txt") <= 255)
    by (vm_compute; discriminate).
  split; [exact Hshort|].
  exact (DebugInit_keeps_short_name perfect (initial tt) (chars "debug.txt")
           Hshort).
Defined.

Lemma DebugLogInt_Hex_silent_witness :
  let s := initial tt in
  gDebugEnabled s = false
  /\ exec (DebugLogInt perfect (lit "n=") 5) s = s
  /\ exec (DebugLogHex perfect (lit "b=") 5) s = s.
Proof.
  cbv zeta. split; [reflexivity|].
  destruct (DebugLogInt_Hex_silent perfect (initial tt) (lit "b=") 5
              (or_introl eq_refl)) as (_ & Hhex & _).
  split; [|exact Hhex].
  exact (proj1 (DebugLogInt_Hex_silent perfect (initial tt) (lit "n=") 5
                  (or_introl eq_refl))).
Defined.

(** The disk fails on the first digit of 1234. *)
Lemma DebugLogInt_stops_at_first_error_witness :
  let tb := scripted [(noErr, 0); (ioErr, 1)] in
  let s := mkSys 42 true 0%nat [] in
  gDebugEnabled s = true /\ gDebugRefNum s <> 0 /\ long_range 1234
  /\ exec (DebugLogInt tb (lit "n=") 1234) s
     = exec (write_until_error tb 42
               [chars "n="; chars "1"; chars "2"; chars "3"; chars "4"; [CR]])
         s
  /\ events_since s (exec (DebugLogInt tb (lit "n=") 1234) s)
     = [EvFSWrite 42 2 (chars "n=") noErr 2;
        EvFSWrite 42 1 (chars "1") ioErr 0].
Proof.
  cbv zeta.
  assert (Href : gDebugRefNum (mkSys 42 true 0%nat []) <> 0) by discriminate.
  assert (Hr : long_range 1234) by (split; vm_compute; congruence).
  split; [reflexivity|]. split; [exact Href|]. split; [exact Hr|].
  split; [|reflexivity].
  exact (proj1 (DebugLogInt_stops_at_first_error
                  (scripted [(noErr, 0); (ioErr, 1)])
                  (mkSys 42 true 0%nat []) (chars "n=") 1234
                  eq_refl Href Hr)).
Defined.

Lemma DebugLog_record_witness :
  let s := mkSys 42 true tt [] in
  reliable perfect /\ first_failed s (lit "hello %d") = None
  /\ c_strlen (chars "hello %d") <= 32000
  /\ written_to 42 (events_since s (exec (DebugLog perfect (lit "hello %d")) s))
     = chars "hello %d" ++ [CR]
  /\ written_to 42
       (events_since s (exec (DebugLogFormat perfect (lit "hello %d")) s))
     = chars "hello %d" ++ [CR].
Proof.
  cbv zeta.
  assert (Hlen : c_strlen (chars "hello %d") <= 32000)
    by (vm_compute; discriminate).
  destruct (DebugLog_record perfect (mkSys 42 true tt []) (chars "hello %d")
              reliable_perfect eq_refl Hlen) as (_ & Hw & _ & Hfmt).
  split; [exact reliable_perfect|]. split; [reflexivity|].
  split; [exact Hlen|]. split; [exact Hw|].
  unfold lit. rewrite Hfmt. exact Hw.
Defined.

Lemma long_text_round_trip_witness :
  long_range LONG_MIN /\ long_range (-42)
  /\ read_decimal (long_text LONG_MIN) = LONG_MIN.
Proof.
  assert (H1 : long_range LONG_MIN) by (split; vm_compute; congruence).
  assert (H2 : long_range (-42)) by (split; vm_compute; congruence).
  split; [exact H1|]. split; [exact H2|].
  exact (proj1 (long_text_round_trip LONG_MIN (-42) H1 H2)).
Defined.

Lemma format_long_fits_witness :
  long_range LONG_MIN
  /\ 1 <= snd (format_long LONG_MIN) <= 11
  /\ Z.of_nat (length (long_text LONG_MIN)) = snd (format_long LONG_MIN).
Proof.
  assert (Hr : long_range LONG_MIN) by (split; vm_compute; congruence).
  split; [exact Hr|].
  pose proof (format_long_fits LONG_MIN Hr) as H.
  destruct (format_long LONG_MIN) as [numBuf i].
  destruct (digits_loop 19 (Z.abs LONG_MIN) 0 (replicate 20 NUL))
    as [[buf' i'] remaining].
  destruct H as (Hi & _ & Hlen & _).
  split; [exact Hi|exact Hlen].
Defined.

(** The disk fails on the prefix; the logger stays enabled. *)
Lemma logging_keeps_lifecycle_witness :
  let tb := scripted [(ioErr, 0)] in
  let s := mkSys 42 true 0%nat [] in
  let s' := run_op tb s (OpLogInt (lit "n=") 7) in
  lifecycle_op (OpLogInt (lit "n=") 7) = false
  /\ gDebugRefNum s' = 42
  /\ gDebugEnabled s' = true.
Proof.
  cbv zeta. split; [reflexivity|].
  destruct (logging_keeps_lifecycle (scripted [(ioErr, 0)])
              (mkSys 42 true 0%nat []) (OpLogInt (lit "n=") 7) eq_refl)
    as (Hr & He & _).
  split; [exact Hr|exact He].
Defined.

Lemma DebugClose_then_log_witness :
  let s := mkSys 42 true tt [EvFSOpen (chars "a.log") 0 noErr 42] in
  let s' := exec (DebugClose perfect) s in
  Inv s
  /\ open_handles (trace s') = []
  /\ events_since s' (exec (DebugLog perfect (lit "late")) s') = [EvSysBeep 5].
Proof.
  cbv zeta.
  assert (HI : Inv (mkSys 42 true tt [EvFSOpen (chars "a.log") 0 noErr 42])).
  { split; [intros _; discriminate|]. split; reflexivity. }
  split; [exact HI|].
  destruct (DebugClose_then_log perfect _ (lit "late") 0 HI)
    as (Hopen & _ & Hlog & _).
  split; [exact Hopen|exact Hlog].
Defined.

Lemma DebugInit_then_DebugLog_witness :
  let s := initial tt in
  let s1 := exec (DebugInit perfect (lit "a.log")) s in
  opens_nonzero perfect
  /\ result (DebugInit perfect (lit "a.log")) s = true
  /\ 0 < c_strlen (chars "hi")
  /\ first_failed s1 (lit "hi") = None.
Proof.
  cbv zeta.
  assert (Hmsg : 0 < c_strlen (chars "hi")) by reflexivity.
  split; [exact opens_nonzero_perfect|]. split; [reflexivity|].
  split; [exact Hmsg|].
  exact (proj1 (DebugInit_then_DebugLog perfect (initial tt) (lit "a.log")
                  (chars "hi") opens_nonzero_perfect eq_refl Hmsg)).
Defined.

Lemma session_file_content_witness :
  let ops := [OpLog (lit "hello"); OpLogInt (lit "n=") (-42);
              OpLogHex (lit "b=") 511; OpLogFormat (lit "x %d"); OpFlush;
              OpLog (lit "")] in
  let s := run perfect (OpInit (lit "a.log") :: ops ++ [OpClose]) (initial tt) in
  cooperative perfect /\ Forall logging_op ops
  /\ exists r,
       r <> 0
       /\ written_to r (trace s)
          = headerMsg ++ concat (map record_of ops) ++ endMsg
       /\ gDebugEnabled s = false
       /\ gDebugRefNum s = 0
       /\ open_handles (trace s) = [].
Proof.
  cbv zeta.
  assert (Hops : Forall logging_op
                   [OpLog (lit "hello"); OpLogInt (lit "n=") (-42);
                    OpLogHex (lit "b=") 511; OpLogFormat (lit "x %d");
                    OpFlush; OpLog (lit "")]).
  { repeat constructor; vm_compute; congruence. }
  split; [exact cooperative_perfect|]. split; [exact Hops|].
  exact (session_file_content perfect tt (chars "a.log") _
           cooperative_perfect Hops).
Defined.
